(** * ft_linear_regression: the training engine of [src/train.py]

    A shallow embedding of the [Trainer] class: feature normalisation, the
    batch gradient-descent loop with its convergence test, and the grid
    search over learning rates and convergence thresholds.

    Numbers are IEEE 754 binary64 values (numpy's [float64]), modelled by
    Rocq's primitive floats; the integer columns of the CSV file enter the
    arithmetic as such values.  A pandas [Series] read by [pd.read_csv]
    carries a [RangeIndex]; it is modelled by the list of its values,
    position being the index label.  A [DataFrame] is a finite map from
    column names to columns.  Methods of [Trainer] run in a state-and-error
    monad over the object [self] and the files written by the program.

    Reading [data.csv] is outside the class: the constructor is given the
    frame that [pd.read_csv] returned.  Sums follow numpy: pairwise
    summation with eight running sums over the whole array, missing values
    counted as [0]. *)

From Stdlib Require Import ZArith List Lia Bool.
From Stdlib Require Import Floats Uint63.
From stdpp Require Import base option list gmap strings.

Local Open Scope Z_scope.

(** ** Python exceptions *)

Inductive PyError : Type :=
  | KeyError (key : string)
  | TypeError (msg : string).

Inductive result (A : Type) : Type :=
  | Ok (a : A)
  | Raise (e : PyError).
Arguments Ok {A} a.
Arguments Raise {A} e.

(** ** Series and DataFrame *)

Abbreviation Series := (list float).
Abbreviation DataFrame := (gmap string (list float)).

(** [df[key]]: a missing column raises [KeyError]. *)
Definition getitem (df : DataFrame) (key : string) : result Series :=
  match df !! key with
  | Some col => Ok col
  | None => Raise (KeyError key)
  end.

(** Arithmetic between a scalar and a [Series] broadcasts over the values. *)
Definition broadcast (f : float -> float) (s : Series) : Series := map f s.

(** Arithmetic between two [Series] aligns them on the union of their
    indexes; a label present on one side only yields [NaN]. *)
Fixpoint align (f : float -> float -> float) (xs ys : Series) : Series :=
  match xs, ys with
  | x :: xs', y :: ys' => f x y :: align f xs' ys'
  | [], _ => map (fun _ => nan) ys
  | _, [] => map (fun _ => nan) xs
  end.

Definition notna (x : float) : bool := negb (is_nan x).

(** [skipna=True]: before summing, pandas puts [0] where a value is
    missing. *)
Definition fillna0 (x : float) : float := if is_nan x then 0%float else x.

(** The number of values that are not missing. *)
Definition count_notna (s : Series) : nat := length (List.filter notna s).

(** numpy's pairwise summation of a contiguous [float64] array, for at
    least 8 and at most 128 values: eight running sums [r0 .. r7] take
    the values by groups of eight, are added as
    [((r0 + r1) + (r2 + r3)) + ((r4 + r5) + (r6 + r7))], and the fewer than
    eight values left are added one by one. *)
Fixpoint pairwise_block (r0 r1 r2 r3 r4 r5 r6 r7 : float) (xs : Series)
  : float :=
  match xs with
  | a0 :: a1 :: a2 :: a3 :: a4 :: a5 :: a6 :: a7 :: xs' =>
      pairwise_block (r0 + a0) (r1 + a1) (r2 + a2) (r3 + a3)
        (r4 + a4) (r5 + a5) (r6 + a6) (r7 + a7) xs'
  | rest =>
      fold_left PrimFloat.add rest
        (((r0 + r1) + (r2 + r3)) + ((r4 + r5) + (r6 + r7)))
  end%float.

(** Up to 128 values: fewer than eight are added one by one, from [-0.0]. *)
Definition pairwise_small (xs : Series) : float :=
  match xs with
  | a0 :: a1 :: a2 :: a3 :: a4 :: a5 :: a6 :: a7 :: xs' =>
      pairwise_block a0 a1 a2 a3 a4 a5 a6 a7 xs'
  | _ => fold_left PrimFloat.add xs neg_zero
  end.

(** More than 128 values: the array is cut at half its length, rounded
    down to a multiple of eight, and the sums of the two parts are added.
    [depth] bounds the number of cuts; the length is enough. *)
Fixpoint pairwise_sum (depth : nat) (xs : Series) : float :=
  match depth with
  | O => pairwise_small xs
  | S depth' =>
      let n := length xs in
      if (n <=? 128)%nat then pairwise_small xs
      else
        let n2 := (n / 2 - (n / 2) mod 8)%nat in
        (pairwise_sum depth' (take n2 xs)
         + pairwise_sum depth' (drop n2 xs))%float
  end.

(** [values.sum()] on a [float64] array: the reduction starts from the
    identity [0] and adds the pairwise sum of the array. *)
Definition fsum (xs : Series) : float :=
  (0 + pairwise_sum (length xs) xs)%float.

Definition float_of_nat (n : nat) : float :=
  of_uint63 (Uint63.of_Z (Z.of_nat n)).

(** [Series.mean()], which is also what [np.mean] calls on a [Series]
    (pandas' [nanmean] with [skipna=True]): the missing values are replaced
    by [0], the whole array is summed, and the sum is divided by the number
    of values that are not missing; [NaN] when there is none. *)
Definition series_mean (s : Series) : float :=
  let count := count_notna s in
  let the_sum := fsum (map fillna0 s) in
  if (count =? 0)%nat then nan
  else (the_sum / float_of_nat count)%float.

(** [Series.std()] (pandas' [nanvar] with [ddof=1], then a square root):
    a two-pass variance over the array with [0] at the missing values, the
    squared deviations at the missing values put to [0] again; [NaN] when
    fewer than two values are not missing. *)
Definition series_std (s : Series) : float :=
  let count := count_notna s in
  if (count <=? 1)%nat then nan
  else
    let values := map fillna0 s in
    let avg := (fsum values / float_of_nat count)%float in
    let sqr :=
      map (fun x => if is_nan x then 0%float
                    else ((avg - x) * (avg - x))%float) s in
    PrimFloat.sqrt (fsum sqr / float_of_nat (count - 1))%float.

(** ** numpy arrays of two elements: [np.zeros(2)] and item assignment *)

Record ndarray2 : Type := Ndarray2 { at0 : float; at1 : float }.

Definition zeros2 : ndarray2 := Ndarray2 0%float 0%float.
Definition set_at0 (a : ndarray2) (v : float) : ndarray2 := Ndarray2 v (at1 a).
Definition set_at1 (a : ndarray2) (v : float) : ndarray2 := Ndarray2 (at0 a) v.

(** ** The trainer object *)

(** [best_iterations] holds [float("inf")] until a run is recorded, then a
    Python [int]. *)
Inductive IterCount : Type :=
  | PosInf
  | Finite (n : Z).

(** [iters < self.best_iterations] for an [int] on the left. *)
Definition int_lt (iters : Z) (best : IterCount) : bool :=
  match best with
  | PosInf => true
  | Finite b => iters <? b
  end.

Record Trainer : Type := MkTrainer {
  mileages : DataFrame;
  mean_km : float;
  std_km : float;
  best_learning_rate : option float;
  best_convergence_threshold : option float;
  best_iterations : IterCount;
  best_theta : option ndarray2
}.

(** A JSON object of numbers, keys in insertion order. *)
Abbreviation JsonDoc := (list (string * float)).

(** ** The method monad

    The state a method runs in: the object and the files written so far. *)
Record World : Type := MkWorld {
  self : Trainer;
  files : gmap string (list (string * float))
}.

(** A method either returns a value or raises; the state it reached is
    kept in both cases, as the object outlives an exception. *)
Definition M (A : Type) : Type := World -> result A * World.

Definition ret {A} (a : A) : M A := fun w => (Ok a, w).

Definition bind {A B} (m : M A) (k : A -> M B) : M B :=
  fun w =>
    match m w with
    | (Ok a, w') => k a w'
    | (Raise e, w') => (Raise e, w')
    end.

Definition lift {A} (r : result A) : M A := fun w => (r, w).

Definition gets {A} (f : Trainer -> A) : M A := fun w => (Ok (f (self w)), w).

Definition modify_self (f : Trainer -> Trainer) : M unit :=
  fun w => (Ok tt, MkWorld (f (self w)) (files w)).

Definition write_file (name : string) (doc : JsonDoc) : M unit :=
  fun w => (Ok tt, MkWorld (self w) (<[name := doc]> (files w))).

Declare Scope method_scope.
Delimit Scope method_scope with method.
Notation "'do' x <- m ;; k" := (bind m (fun x => k))
  (at level 10, x name, m at level 99, k at level 200) : method_scope.
Notation "'do' ' p <- m ;; k" := (bind m (fun x => let 'p := x in k))
  (at level 10, p pattern, m at level 99, k at level 200) : method_scope.
Notation "'run' m ;; k" := (bind m (fun _ => k))
  (at level 10, m at level 99, k at level 200) : method_scope.
Local Open Scope method_scope.

(** [for x in xs: body x] *)
Fixpoint for_each {A} (xs : list A) (body : A -> M unit) : M unit :=
  match xs with
  | [] => ret tt
  | x :: xs' => run body x ;; for_each xs' body
  end.

(** ** Methods of [Trainer] *)

(** [self.mileages[key]] *)
Definition self_column (key : string) : M Series :=
  do df <- gets mileages ;; lift (getitem df key).

(** Reads [self.mean_km] and [self.std_km]; called from [__init__] on the
    object under construction. *)
Definition normalize_mileage (s : Trainer) (mileage : Series) : Series :=
  broadcast (fun x => ((x - mean_km s) / std_km s)%float) mileage.

Definition estimate_price (normalized_mileage : Series) (theta : ndarray2)
  : Series :=
  broadcast (fun x => (at0 theta + at1 theta * x)%float) normalized_mileage.

Definition convergence_threshold_reached
  (new_theta theta : ndarray2) (convergence_threshold : float) : bool :=
  (PrimFloat.abs (at0 new_theta - at0 theta) <? convergence_threshold)%float
  && (PrimFloat.abs (at1 new_theta - at1 theta) <? convergence_threshold)%float.

Definition calculate_gradient (errors : Series) : M ndarray2 :=
  let gradient_theta := zeros2 in
  let gradient_theta := set_at0 gradient_theta (series_mean errors) in
  do normalized_km <- self_column "normalized_km" ;;
  let gradient_theta :=
    set_at1 gradient_theta
      (series_mean (align PrimFloat.mul errors normalized_km)) in
  ret gradient_theta.

Definition calculate_new_theta
  (theta gradient_theta : ndarray2) (learning_rate : float) : ndarray2 :=
  let new_theta := zeros2 in
  let new_theta :=
    set_at0 new_theta (at0 theta - learning_rate * at0 gradient_theta)%float in
  let new_theta :=
    set_at1 new_theta (at1 theta - learning_rate * at1 gradient_theta)%float in
  new_theta.

(** What subscripting [None] raises. *)
Definition none_not_subscriptable : PyError :=
  TypeError "'NoneType' object is not subscriptable".

(** [model_to_json]: the dictionary is built first, so a missing
    [best_theta] raises before the file is opened. *)
Definition model_to_json : M unit :=
  do bt <- gets best_theta ;;
  match bt with
  | None => lift (Raise none_not_subscriptable)
  | Some theta =>
      do mean <- gets mean_km ;;
      do std <- gets std_km ;;
      let model_params : JsonDoc :=
        [("theta_0", at0 theta); ("theta_1", at1 theta);
         ("mean_km", mean); ("std_km", std)] in
      write_file "model.json" model_params
  end.

(** The body of [for i in range(iterations)], from index [i] on, with
    [remaining] indexes left in the range. *)
Fixpoint gradient_descent_loop (remaining : nat) (i : Z)
  (mileages_arg : DataFrame) (learning_rate convergence : float)
  (iterations : Z) (theta : ndarray2) : M (Z * ndarray2) :=
  match remaining with
  | O => ret (iterations, theta)
  | S remaining' =>
      do normalized_km <- self_column "normalized_km" ;;
      let predictions := estimate_price normalized_km theta in
      do price <- lift (getitem mileages_arg "price") ;;
      let errors := align PrimFloat.sub predictions price in
      do grad_t <- calculate_gradient errors ;;
      let new_t := calculate_new_theta theta grad_t learning_rate in
      if convergence_threshold_reached new_t theta convergence
      then ret (i + 1, theta)
      else gradient_descent_loop remaining' (i + 1) mileages_arg
             learning_rate convergence iterations new_t
  end.

(** [range(iterations)] is empty for [iterations <= 0]. *)
Definition gradient_descent (mileages_arg : DataFrame)
  (learning_rate convergence : float) (iterations : Z) : M (Z * ndarray2) :=
  let theta := zeros2 in
  gradient_descent_loop (Z.to_nat iterations) 0 mileages_arg
    learning_rate convergence iterations theta.

Definition default_iterations : Z := 500.

Definition update_hyperparameters (iters : Z)
  (learning_rate convergence : float) (theta : ndarray2) : M unit :=
  run modify_self (fun s =>
        MkTrainer (mileages s) (mean_km s) (std_km s) (best_learning_rate s)
          (best_convergence_threshold s) (Finite iters) (best_theta s)) ;;
  run modify_self (fun s =>
        MkTrainer (mileages s) (mean_km s) (std_km s) (Some learning_rate)
          (best_convergence_threshold s) (best_iterations s) (best_theta s)) ;;
  run modify_self (fun s =>
        MkTrainer (mileages s) (mean_km s) (std_km s) (best_learning_rate s)
          (Some convergence) (best_iterations s) (best_theta s)) ;;
  modify_self (fun s =>
        MkTrainer (mileages s) (mean_km s) (std_km s) (best_learning_rate s)
          (best_convergence_threshold s) (best_iterations s) (Some theta)).

(** The body of the inner loop of [hyperparameter_tuning]. *)
Definition try_candidate (mileages_arg : DataFrame) (lr ct : float) : M unit :=
  do '(iters, theta) <-
    gradient_descent mileages_arg lr ct default_iterations ;;
  do best <- gets best_iterations ;;
  if int_lt iters best
  then update_hyperparameters iters lr ct theta
  else ret tt.

Definition hyperparameter_tuning (mileages_arg : DataFrame)
  (learning_rates convergence_thresholds : list float)
  : M (option ndarray2) :=
  run for_each learning_rates (fun lr =>
        for_each convergence_thresholds (fun ct =>
          try_candidate mileages_arg lr ct)) ;;
  run model_to_json ;;
  gets best_theta.

(** [Trainer()]: [data] is what [pd.read_csv("data.csv")] returned. *)
Definition Trainer_init (data : DataFrame) : result Trainer :=
  match getitem data "km" with
  | Raise e => Raise e
  | Ok km =>
      let mean := series_mean km in
      let std := series_std km in
      let partial := MkTrainer data mean std None None PosInf None in
      let normalized := normalize_mileage partial km in
      Ok (MkTrainer (<["normalized_km" := normalized]> data) mean std
            None None PosInf None)
  end.

(** ** Reading the methods: outcomes, loop body and trajectory *)

Definition outcome {A} (m : M A) (w : World) : result A := fst (m w).
Definition final_state {A} (m : M A) (w : World) : World := snd (m w).

(** The sample data a method sees: the trainer's own frame and statistics. *)
Definition same_data (w w' : World) : Prop :=
  mileages (self w') = mileages (self w)
  /\ mean_km (self w') = mean_km (self w)
  /\ std_km (self w') = std_km (self w).

(** One pass through the body of the loop of [gradient_descent], once the
    two columns it reads have been found: the value bound to [new_t]. *)
Definition step_theta (normalized_km price : Series) (learning_rate : float)
  (theta : ndarray2) : ndarray2 :=
  let predictions := estimate_price normalized_km theta in
  let errors := align PrimFloat.sub predictions price in
  let grad_t :=
    Ndarray2 (series_mean errors)
      (series_mean (align PrimFloat.mul errors normalized_km)) in
  calculate_new_theta theta grad_t learning_rate.

(** The value of [theta] at the start of iteration [k]. *)
Fixpoint theta_at (normalized_km price : Series) (learning_rate : float)
  (k : nat) : ndarray2 :=
  match k with
  | O => zeros2
  | S k' =>
      step_theta normalized_km price learning_rate
        (theta_at normalized_km price learning_rate k')
  end.

(** The convergence test as evaluated in iteration [k]. *)
Definition test_at (normalized_km price : Series)
  (learning_rate convergence : float) (k : nat) : bool :=
  convergence_threshold_reached
    (theta_at normalized_km price learning_rate (S k))
    (theta_at normalized_km price learning_rate k) convergence.

(** The candidates in the order the two nested loops visit them. *)
Definition grid (learning_rates convergence_thresholds : list float)
  : list (float * float) :=
  flat_map (fun lr => map (fun ct => (lr, ct)) convergence_thresholds)
    learning_rates.

(** The two nested loops of [hyperparameter_tuning]. *)
Definition sweep (mileages_arg : DataFrame)
  (learning_rates convergence_thresholds : list float) : M unit :=
  for_each learning_rates (fun lr =>
    for_each convergence_thresholds (fun ct =>
      try_candidate mileages_arg lr ct)).

(** The best-result state after [update_hyperparameters]. *)
Definition with_best (iters : Z) (lr ct : float) (theta : ndarray2)
  (w : World) : World :=
  MkWorld
    (MkTrainer (mileages (self w)) (mean_km (self w)) (std_km (self w))
       (Some lr) (Some ct) (Finite iters) (Some theta))
    (files w).

(** Order on iteration counts, [float("inf")] on top. *)
Definition iter_le (a b : IterCount) : Prop :=
  match a, b with
  | _, PosInf => True
  | PosInf, Finite _ => False
  | Finite x, Finite y => x <= y
  end.

(** The trainer's frame holds the normalized column [normalized_km]. *)
Definition has_normalized (normalized_km : Series) (w : World) : Prop :=
  mileages (self w) !! "normalized_km" = Some normalized_km.

(** What the loop of [gradient_descent] returns when both columns are
    there: the same loop over [step_theta]. *)
Fixpoint loop_result (normalized_km price : Series)
  (learning_rate convergence : float) (iterations : Z)
  (remaining : nat) (i : Z) (theta : ndarray2) : Z * ndarray2 :=
  match remaining with
  | O => (iterations, theta)
  | S remaining' =>
      let new_t := step_theta normalized_km price learning_rate theta in
      if convergence_threshold_reached new_t theta convergence
      then (i + 1, theta)
      else loop_result normalized_km price learning_rate convergence
             iterations remaining' (i + 1) new_t
  end.

Definition descent_result (normalized_km price : Series)
  (learning_rate convergence : float) (iterations : Z) : Z * ndarray2 :=
  loop_result normalized_km price learning_rate convergence iterations
    (Z.to_nat iterations) 0 zeros2.

(** [k] steps of the loop body from [theta]. *)
Fixpoint steps_from (normalized_km price : Series) (learning_rate : float)
  (k : nat) (theta : ndarray2) : ndarray2 :=
  match k with
  | O => theta
  | S k' =>
      steps_from normalized_km price learning_rate k'
        (step_theta normalized_km price learning_rate theta)
  end.

(** The change of each parameter in iteration [k], as the test sees it. *)
Definition delta0 (normalized_km price : Series) (learning_rate : float)
  (k : nat) : float :=
  PrimFloat.abs
    (at0 (theta_at normalized_km price learning_rate (S k))
     - at0 (theta_at normalized_km price learning_rate k))%float.

Definition delta1 (normalized_km price : Series) (learning_rate : float)
  (k : nat) : float :=
  PrimFloat.abs
    (at1 (theta_at normalized_km price learning_rate (S k))
     - at1 (theta_at normalized_km price learning_rate k))%float.

(** ** Sample programs *)

Definition frame_of (km price : Series) : DataFrame :=
  <["km" := km]> (<["price" := price]> ∅).

(** Three cars: the scenario of the specification. *)
Definition three_cars : DataFrame :=
  frame_of [10000; 50000; 100000]%float [8000; 6000; 4000]%float.

(** Two cars with the same mileage: the mileage column has no variance. *)
Definition same_mileage : DataFrame :=
  frame_of [5; 5]%float [8000; 6000]%float.

(** A single car. *)
Definition one_car : DataFrame := frame_of [5]%float [8000]%float.

Definition blank_trainer : Trainer :=
  MkTrainer ∅ 0%float 0%float None None PosInf None.

(** The state right after [Trainer()] on the loaded [data], no file
    written yet. *)
Definition started (data : DataFrame) : World :=
  match Trainer_init data with
  | Ok t => MkWorld t ∅
  | Raise _ => MkWorld blank_trainer ∅
  end.

Definition normalized_of (data : DataFrame) : Series :=
  default [] (mileages (self (started data)) !! "normalized_km").

Definition price_of (data : DataFrame) : Series := default [] (data !! "price").

(** The body of the loops of [hyperparameter_tuning] on a candidate pair. *)
Definition try_pair (mileages_arg : DataFrame) (c : float * float) : M unit :=
  try_candidate mileages_arg (fst c) (snd c).

(** What [gradient_descent] returns for a candidate under the default
    budget, in state [w]. *)
Definition evaluate (mileages_arg : DataFrame) (c : float * float) (w : World)
  : result (Z * ndarray2) :=
  outcome (gradient_descent mileages_arg (fst c) (snd c) default_iterations) w.

(** The count and the parameters a candidate obtains under the default
    budget, when both columns are there. *)
Definition candidate_iters (normalized_km price : Series)
  (c : float * float) : Z :=
  fst (descent_result normalized_km price (fst c) (snd c) default_iterations).

Definition candidate_theta (normalized_km price : Series)
  (c : float * float) : ndarray2 :=
  snd (descent_result normalized_km price (fst c) (snd c) default_iterations).

(** The pair at position [k] has the fewest iterations of [cands], and is
    the first one to have them. *)
Definition first_minimum (normalized_km price : Series)
  (cands : list (float * float)) (k : nat) (c : float * float) : Prop :=
  cands !! k = Some c
  /\ forall (j : nat) (c' : float * float),
       cands !! j = Some c' ->
       candidate_iters normalized_km price c
         <= candidate_iters normalized_km price c'
       /\ ((j < k)%nat ->
           candidate_iters normalized_km price c
             < candidate_iters normalized_km price c').

(** ** The error handling the specification asks for *)

(** The rows of the sample set, and those that differ from all later ones. *)
Definition samples (data : DataFrame) : list (float * float) :=
  zip (default [] (data !! "km")) (default [] (data !! "price")).

Definition same_sample (a b : float * float) : bool :=
  (fst a =? fst b)%float && (snd a =? snd b)%float.

Fixpoint distinct_samples (rows : list (float * float))
  : list (float * float) :=
  match rows with
  | [] => []
  | r :: rows' =>
      if existsb (same_sample r) rows'
      then distinct_samples rows'
      else r :: distinct_samples rows'
  end.

(** The mean over every entry of a column: the sum of all the values over
    their number, [NaN] as soon as one value is [NaN]. *)
Definition mean_over_all (s : Series) : float :=
  (fsum s / float_of_nat (length s))%float.

(** The gradient is the pair of the means, over every sample, of the errors
    and of their products with the normalized mileages. *)
Definition gradient_over_entire_sample (errors normalized_km : Series)
  (w : World) : Prop :=
  calculate_gradient errors w =
  (Ok (Ndarray2 (mean_over_all errors)
         (mean_over_all (zip_with PrimFloat.mul errors normalized_km))), w).

(** A mileage column without variance is reported: the constructor raises,
    or the search on the new trainer does. *)
Definition zero_variance_reported (data : DataFrame)
  (learning_rates convergence_thresholds : list float) : Prop :=
  forall km : Series,
    data !! "km" = Some km ->
    (series_std km =? 0)%float = true ->
    (exists e : PyError, Trainer_init data = Raise e)
    \/ (exists (tr : Trainer) (e : PyError) (w' : World),
           Trainer_init data = Ok tr
           /\ hyperparameter_tuning data learning_rates
                convergence_thresholds (MkWorld tr ∅) = (Raise e, w')).

(** An empty candidate list, or fewer than two distinct samples, is
    reported: the constructor raises, or the search on the new trainer
    does. *)
Definition configuration_checked (data : DataFrame)
  (learning_rates convergence_thresholds : list float) : Prop :=
  learning_rates = [] \/ convergence_thresholds = []
  \/ (length (distinct_samples (samples data)) < 2)%nat ->
  (exists e : PyError, Trainer_init data = Raise e)
  \/ (exists (tr : Trainer) (e : PyError) (w' : World),
         Trainer_init data = Ok tr
         /\ hyperparameter_tuning data learning_rates
              convergence_thresholds (MkWorld tr ∅) = (Raise e, w')).

(** ** Further notions *)

(** One of the two parameters is [NaN]. *)
Definition has_nan (theta : ndarray2) : bool :=
  is_nan (at0 theta) || is_nan (at1 theta).

(** The document [model_to_json] writes for the parameters [theta] of a
    trainer [t]. *)
Definition exported_model (t : Trainer) (theta : ndarray2) : JsonDoc :=
  [("theta_0", at0 theta); ("theta_1", at1 theta);
   ("mean_km", mean_km t); ("std_km", std_km t)].

(** The standard deviation is zero or [NaN]: the mileages have no variance,
    or there are fewer than two of them. *)
Definition degenerate (std : float) : Prop :=
  (std =? 0)%float = true \/ is_nan std = true.

(** ** Proof automation for methods *)

Create HintDb method discriminated.
#[local] Hint Unfold calculate_gradient self_column getitem
  bind ret lift gets modify_self write_file : method.

Ltac run_method := repeat autounfold with method; cbv beta.

(** ** Float comparison *)

Lemma SFltb_trans (a b c : spec_float) :
  SFltb a b = true -> SFltb b c = true -> SFltb a c = true.
Proof.
  unfold SFltb, SFcompare.
  destruct a as [sa|sa| |sa ma ea], b as [sb|sb| |sb mb eb],
    c as [sc|sc| |sc mc ec];
    try destruct sa; try destruct sb; try destruct sc;
    simpl; try congruence.
  all: destruct (Z.compare_spec ea eb), (Z.compare_spec eb ec),
    (Z.compare_spec ea ec); simpl; try congruence; try lia.
  all: subst; change (Pos.compare_cont Eq ?p ?q) with (Pos.compare p q).
  all: destruct (Pos.compare_spec ma mb), (Pos.compare_spec mb mc),
    (Pos.compare_spec ma mc); simpl; try congruence; try lia.
Qed.

Lemma float_ltb_trans (x y z : float) :
  (x <? y)%float = true -> (y <? z)%float = true -> (x <? z)%float = true.
Proof. rewrite !FloatAxioms.ltb_spec. apply SFltb_trans. Qed.

(** A test passed under a threshold is passed under any larger one. *)
Lemma convergence_threshold_weaken (new_theta theta : ndarray2) (t' t : float) :
  (t' <? t)%float = true ->
  convergence_threshold_reached new_theta theta t' = true ->
  convergence_threshold_reached new_theta theta t = true.
Proof.
  unfold convergence_threshold_reached. intros Hlt H.
  apply andb_true_iff in H as [H0 H1].
  apply andb_true_iff; split; eapply float_ltb_trans; eauto.
Qed.

(** ** Series lemmas *)

Lemma align_zip_with (f : float -> float -> float) (xs ys : Series) :
  length xs = length ys -> align f xs ys = zip_with f xs ys.
Proof.
  revert ys. induction xs as [|x xs IH]; intros [|y ys] Hlen;
    simpl in *; try discriminate; try reflexivity.
  f_equal. apply IH. lia.
Qed.

Lemma filter_notna_all (s : Series) :
  forallb notna s = true -> List.filter notna s = s.
Proof.
  induction s as [|x s IH]; simpl; [reflexivity|].
  intros H. apply andb_true_iff in H as [Hx Hs].
  rewrite Hx, IH; auto.
Qed.

(** With no missing value, the mean is the sum of all the values over their
    number. *)
Lemma series_mean_full (s : Series) :
  forallb notna s = true ->
  series_mean s = (fsum s / float_of_nat (length s))%float.
Proof.
  intros H. unfold series_mean, count_notna.
  rewrite (filter_notna_all s H).
  replace (map fillna0 s) with s.
  - destruct s as [|x s]; [vm_compute; reflexivity | reflexivity].
  - clear -H. induction s as [|x s IH]; [reflexivity|].
    simpl in *. apply andb_true_iff in H as [Hx Hs].
    unfold fillna0 at 1. unfold notna in Hx.
    apply negb_true_iff in Hx. rewrite Hx. f_equal. apply IH. exact Hs.
Qed.

(** ** The gradient-descent loop *)

Section GradientDescent.

Variables (normalized_km price : Series) (mileages_arg : DataFrame).
Variables (learning_rate : float).
Hypothesis Hprice : mileages_arg !! "price" = Some price.

Local Abbreviation step := (step_theta normalized_km price learning_rate).
Local Abbreviation theta_k := (theta_at normalized_km price learning_rate).
Local Abbreviation from := (steps_from normalized_km price learning_rate).

Lemma calculate_gradient_found (errors : Series) (w : World) :
  has_normalized normalized_km w ->
  calculate_gradient errors w =
    (Ok (Ndarray2 (series_mean errors)
           (series_mean (align PrimFloat.mul errors normalized_km))), w).
Proof.
  unfold has_normalized. intros Hn. run_method. rewrite Hn. reflexivity.
Qed.

Lemma gradient_descent_loop_found (convergence : float) (iterations : Z)
  (n : nat) :
  forall (i : Z) (theta : ndarray2) (w : World),
    has_normalized normalized_km w ->
    gradient_descent_loop n i mileages_arg learning_rate convergence
      iterations theta w =
    (Ok (loop_result normalized_km price learning_rate convergence
           iterations n i theta), w).
Proof.
  induction n as [|n IH]; intros i theta w Hn; simpl; [reflexivity|].
  pose proof Hn as Hn'. unfold has_normalized in Hn'.
  run_method. rewrite Hn', Hprice. cbv beta iota.
  match goal with
  | |- context [calculate_new_theta theta ?g learning_rate] =>
      change (calculate_new_theta theta g learning_rate) with (step theta)
  end.
  destruct (convergence_threshold_reached (step theta) theta convergence);
    [reflexivity|].
  apply IH. exact Hn.
Qed.

Lemma gradient_descent_found (convergence : float) (iterations : Z)
  (w : World) :
  has_normalized normalized_km w ->
  gradient_descent mileages_arg learning_rate convergence iterations w =
  (Ok (descent_result normalized_km price learning_rate convergence
         iterations), w).
Proof. intros Hn. apply gradient_descent_loop_found. exact Hn. Qed.

Lemma steps_from_succ (k : nat) (theta : ndarray2) :
  from (S k) theta = step (from k theta).
Proof.
  revert theta. induction k as [|k IH]; intros theta; [reflexivity|].
  change (from (S (S k)) theta) with (from (S k) (step theta)).
  rewrite IH. reflexivity.
Qed.

Lemma theta_at_steps_from (k : nat) : theta_k k = from k zeros2.
Proof.
  induction k as [|k IH]; [reflexivity|].
  rewrite steps_from_succ, <- IH. reflexivity.
Qed.

(** The loop stops at the first passed test, or runs out of indexes. *)
Lemma loop_result_cases (convergence : float) (iterations : Z) (n : nat) :
  forall (i : Z) (theta : ndarray2),
    (exists m : nat,
        (m < n)%nat
        /\ (forall j : nat, (j < m)%nat ->
              convergence_threshold_reached (from (S j) theta)
                (from j theta) convergence = false)
        /\ convergence_threshold_reached (from (S m) theta)
             (from m theta) convergence = true
        /\ loop_result normalized_km price learning_rate convergence
             iterations n i theta = (i + Z.of_nat m + 1, from m theta))
    \/ ((forall j : nat, (j < n)%nat ->
              convergence_threshold_reached (from (S j) theta)
                (from j theta) convergence = false)
        /\ loop_result normalized_km price learning_rate convergence
             iterations n i theta = (iterations, from n theta)).
Proof.
  induction n as [|n IH]; intros i theta.
  - right. split; [intros j Hj; lia | reflexivity].
  - simpl loop_result.
    destruct (convergence_threshold_reached (step theta) theta convergence)
      eqn:Htest.
    + left. exists 0%nat. repeat split; try lia.
      * exact Htest.
      * simpl. f_equal. lia.
    + destruct (IH (i + 1) (step theta))
        as [(m & Hm & Hbefore & Hat & Hres) | (Hnone & Hres)].
      * left. exists (S m). repeat split; try lia.
        -- intros [|j] Hj; [exact Htest|]. apply Hbefore. lia.
        -- exact Hat.
        -- rewrite Hres. simpl. f_equal. lia.
      * right. split; [|exact Hres].
        intros [|j] Hj; [exact Htest|]. apply Hnone. lia.
Qed.

End GradientDescent.

(** ** Results of a run, in terms of the trajectory from [np.zeros(2)] *)

Section DescentResult.

Variables (normalized_km price : Series) (learning_rate : float).

Local Abbreviation theta_k := (theta_at normalized_km price learning_rate).
Local Abbreviation test := (test_at normalized_km price learning_rate).
Local Abbreviation result_of :=
  (descent_result normalized_km price learning_rate).

Lemma test_at_deltas (convergence : float) (k : nat) :
  test convergence k =
  ((delta0 normalized_km price learning_rate k <? convergence)%float
   && (delta1 normalized_km price learning_rate k <? convergence)%float).
Proof. reflexivity. Qed.

Lemma descent_result_cases (convergence : float) (iterations : Z) :
  (exists m : nat,
      Z.of_nat m < iterations
      /\ (forall j : nat, (j < m)%nat -> test convergence j = false)
      /\ test convergence m = true
      /\ result_of convergence iterations = (Z.of_nat m + 1, theta_k m))
  \/ ((forall j : nat, (j < Z.to_nat iterations)%nat ->
         test convergence j = false)
      /\ result_of convergence iterations =
         (iterations, theta_k (Z.to_nat iterations))).
Proof.
  unfold descent_result, test_at.
  destruct (loop_result_cases normalized_km price learning_rate convergence
              iterations (Z.to_nat iterations) 0 zeros2)
    as [(m & Hm & Hbefore & Hat & Hres) | (Hnone & Hres)].
  - left. exists m. rewrite !theta_at_steps_from.
    repeat split; [lia| |exact Hat|exact Hres].
    intros j Hj. rewrite !theta_at_steps_from. auto.
  - right. rewrite !theta_at_steps_from. split; [|exact Hres].
    intros j Hj. rewrite !theta_at_steps_from. auto.
Qed.

Lemma descent_result_first (convergence : float) (iterations : Z) (i : nat) :
  Z.of_nat i < iterations ->
  (forall j : nat, (j < i)%nat -> test convergence j = false) ->
  test convergence i = true ->
  result_of convergence iterations = (Z.of_nat i + 1, theta_k i).
Proof.
  intros Hi Hbefore Hat.
  destruct (descent_result_cases convergence iterations)
    as [(m & Hm & Hmb & Hma & Hres) | (Hnone & Hres)].
  - destruct (Nat.lt_trichotomy m i) as [Hlt | [-> | Hgt]].
    + rewrite (Hbefore m Hlt) in Hma. discriminate.
    + exact Hres.
    + rewrite (Hmb i Hgt) in Hat. discriminate.
  - rewrite (Hnone i) in Hat; [discriminate | lia].
Qed.

Lemma descent_result_bounds (convergence : float) (iterations : Z) :
  0 < iterations ->
  1 <= fst (result_of convergence iterations) <= iterations.
Proof.
  intros Hpos.
  destruct (descent_result_cases convergence iterations)
    as [(m & Hm & _ & _ & Hres) | (_ & Hres)]; rewrite Hres; simpl; lia.
Qed.

Lemma descent_result_exhausted (convergence : float) (iterations : Z) :
  (forall j : nat, Z.of_nat j < iterations -> test convergence j = false) ->
  result_of convergence iterations =
  (iterations, theta_k (Z.to_nat iterations)).
Proof.
  intros Hnone.
  destruct (descent_result_cases convergence iterations)
    as [(m & Hm & _ & Hat & _) | (_ & Hres)]; [|exact Hres].
  rewrite (Hnone m Hm) in Hat. discriminate.
Qed.

(** A smaller threshold cannot stop the loop earlier. *)
Lemma descent_result_monotone (t' t : float) (iterations : Z) :
  (t' <? t)%float = true ->
  fst (result_of t iterations) <= fst (result_of t' iterations).
Proof.
  intros Hlt.
  destruct (descent_result_cases t' iterations)
    as [(m' & Hm' & _ & Hat' & Hres') | (_ & Hres')]; rewrite Hres'; simpl.
  - apply (convergence_threshold_weaken _ _ _ _ Hlt) in Hat'.
    fold (test t m') in Hat'.
    destruct (descent_result_cases t iterations)
      as [(m & Hm & Hmb & _ & Hres) | (Hnone & Hres)]; rewrite Hres; simpl.
    + destruct (Nat.le_gt_cases m m') as [Hle | Hgt]; [lia|].
      rewrite (Hmb m' Hgt) in Hat'. discriminate.
    + rewrite (Hnone m') in Hat'; [discriminate | lia].
  - destruct (descent_result_cases t iterations)
      as [(m & Hm & _ & _ & Hres) | (_ & Hres)]; rewrite Hres; simpl; lia.
Qed.

End DescentResult.

(** ** Properties of [calculate_gradient] and [gradient_descent] *)

(** C1. The loop declares convergence at the first iteration [i] at which
    the change of [theta[0]] and the change of [theta[1]] are both below
    the threshold, each compared on its own, and then returns [i + 1] with
    the value [theta] had when iteration [i] started, not [new_theta]. *)
Theorem gradient_descent_stops_at_first_convergence
  (normalized_km price : Series) (mileages_arg : DataFrame)
  (learning_rate convergence : float) (iterations : Z) (w : World) (i : nat) :
  has_normalized normalized_km w ->
  mileages_arg !! "price" = Some price ->
  Z.of_nat i < iterations ->
  (forall j : nat, (j < i)%nat ->
     ~ ((delta0 normalized_km price learning_rate j <? convergence)%float = true
        /\ (delta1 normalized_km price learning_rate j <? convergence)%float
           = true)) ->
  (delta0 normalized_km price learning_rate i <? convergence)%float = true ->
  (delta1 normalized_km price learning_rate i <? convergence)%float = true ->
  gradient_descent mileages_arg learning_rate convergence iterations w =
  (Ok (Z.of_nat i + 1, theta_at normalized_km price learning_rate i), w).
Proof.
  intros Hn Hprice Hi Hbefore H0 H1.
  rewrite (gradient_descent_found normalized_km price mileages_arg
             learning_rate Hprice convergence iterations w Hn).
  f_equal. f_equal. apply descent_result_first; [exact Hi| |].
  - intros j Hj. rewrite test_at_deltas.
    apply not_true_is_false. intros Hboth.
    apply andb_true_iff in Hboth. exact (Hbefore j Hj Hboth).
  - rewrite test_at_deltas, H0, H1. reflexivity.
Qed.

Lemma gradient_descent_stops_at_first_convergence_witness :
  gradient_descent three_cars 0.5 1000 500 (started three_cars) =
  (Ok (3, theta_at (normalized_of three_cars) (price_of three_cars) 0.5 2),
   started three_cars).
Proof.
  apply (gradient_descent_stops_at_first_convergence
           (normalized_of three_cars) (price_of three_cars) three_cars
           0.5 1000 500 (started three_cars) 2).
  - vm_compute. reflexivity.
  - reflexivity.
  - lia.
  - intros [|[|j]] Hj [H0 H1]; [vm_compute in H0; discriminate
                               | vm_compute in H0; discriminate | lia].
  - vm_compute. reflexivity.
  - vm_compute. reflexivity.
Defined.

(** C2, as the specification states it, fails: of the errors
    [1, NaN, 3] the code returns the mean [2] of the two errors that are not
    missing, where the mean over every sample is [NaN]. *)
Lemma gradient_leaves_missing_errors_out :
  ~ gradient_over_entire_sample [1; nan; 3]%float
      (normalized_of three_cars) (started three_cars).
Proof.
  unfold gradient_over_entire_sample. intros Hclaim.
  apply (f_equal (fun r : result ndarray2 * World =>
                    match fst r with
                    | Ok g => is_nan (at0 g)
                    | Raise _ => false
                    end)) in Hclaim.
  vm_compute in Hclaim. discriminate.
Qed.

(** C2, amended. For an error vector as long as the normalized mileage
    column, each component of the gradient is a mean that leaves the
    missing values out: the errors, resp. their products with the
    normalized mileages, are summed over the whole column with [0] in place
    of every [NaN], and the sum is divided by the number of entries that are
    not [NaN]; the component is [NaN] when there is none.  When no error
    and no product is [NaN], this is the sum over every sample divided by
    the number of samples. *)
Theorem calculate_gradient_skips_missing
  (errors normalized_km : Series) (w : World) :
  has_normalized normalized_km w ->
  length errors = length normalized_km ->
  let products := zip_with PrimFloat.mul errors normalized_km in
  calculate_gradient errors w =
    (Ok (Ndarray2
           (if (count_notna errors =? 0)%nat then nan
            else (fsum (map fillna0 errors)
                  / float_of_nat (count_notna errors))%float)
           (if (count_notna products =? 0)%nat then nan
            else (fsum (map fillna0 products)
                  / float_of_nat (count_notna products))%float)), w)
  /\ (forallb notna errors = true ->
      forallb notna products = true ->
      calculate_gradient errors w =
        (Ok (Ndarray2
               (fsum errors / float_of_nat (length normalized_km))%float
               (fsum products / float_of_nat (length normalized_km))%float),
         w)).
Proof.
  intros Hn Hlen products.
  rewrite (calculate_gradient_found normalized_km errors w Hn).
  rewrite (align_zip_with _ _ _ Hlen). fold products.
  split; [reflexivity|].
  intros Herrors Hproducts.
  rewrite (series_mean_full errors Herrors),
    (series_mean_full products Hproducts).
  unfold products at 2. rewrite length_zip_with, Hlen, Nat.min_id.
  reflexivity.
Qed.

Lemma calculate_gradient_skips_missing_witness :
  calculate_gradient [2; 4; 6]%float (started three_cars) =
  (Ok (Ndarray2
         (fsum [2; 4; 6]%float / float_of_nat 3)%float
         (fsum (zip_with PrimFloat.mul [2; 4; 6]%float
                  (normalized_of three_cars))
          / float_of_nat 3)%float),
   started three_cars).
Proof.
  destruct (calculate_gradient_skips_missing [2; 4; 6]%float
              (normalized_of three_cars) (started three_cars))
    as [_ Hfull].
  - vm_compute. reflexivity.
  - reflexivity.
  - apply Hfull; vm_compute; reflexivity.
Defined.

(** C4. With a positive budget [gradient_descent] returns, and the count it
    returns lies between 1 and [iterations]; when no iteration passes the
    convergence test it returns [iterations] with the last updated
    [theta]. *)
Theorem gradient_descent_within_budget
  (normalized_km price : Series) (mileages_arg : DataFrame)
  (learning_rate convergence : float) (iterations : Z) (w : World) :
  has_normalized normalized_km w ->
  mileages_arg !! "price" = Some price ->
  0 < iterations ->
  exists (k : Z) (theta : ndarray2),
    gradient_descent mileages_arg learning_rate convergence iterations w =
      (Ok (k, theta), w)
    /\ 1 <= k <= iterations
    /\ ((forall j : nat, Z.of_nat j < iterations ->
           test_at normalized_km price learning_rate convergence j = false) ->
        k = iterations
        /\ theta =
           theta_at normalized_km price learning_rate (Z.to_nat iterations)).
Proof.
  intros Hn Hprice Hpos.
  rewrite (gradient_descent_found normalized_km price mileages_arg
             learning_rate Hprice convergence iterations w Hn).
  destruct (descent_result normalized_km price learning_rate convergence
              iterations) as [k theta] eqn:Hres.
  exists k, theta. split; [reflexivity|]. split.
  - pose proof (descent_result_bounds normalized_km price learning_rate
                  convergence iterations Hpos) as Hb.
    rewrite Hres in Hb. exact Hb.
  - intros Hnone.
    pose proof (descent_result_exhausted normalized_km price learning_rate
                  convergence iterations Hnone) as He.
    rewrite Hres in He. injection He as -> ->. split; reflexivity.
Qed.

Lemma gradient_descent_within_budget_witness :
  exists (k : Z) (theta : ndarray2),
    gradient_descent three_cars 0.5 100 3 (started three_cars) =
      (Ok (k, theta), started three_cars)
    /\ 1 <= k <= 3
    /\ ((forall j : nat, Z.of_nat j < 3 ->
           test_at (normalized_of three_cars) (price_of three_cars)
             0.5 100 j = false) ->
        k = 3
        /\ theta =
           theta_at (normalized_of three_cars) (price_of three_cars) 0.5
             (Z.to_nat 3)).
Proof.
  apply (gradient_descent_within_budget
           (normalized_of three_cars) (price_of three_cars) three_cars
           0.5 100 3 (started three_cars)).
  - vm_compute. reflexivity.
  - reflexivity.
  - lia.
Defined.

(** C8. For a fixed trainer, sample set, learning rate and budget, a run
    with a smaller threshold [t' < t] never returns a smaller iteration
    count than the run with threshold [t]. *)
Theorem gradient_descent_threshold_monotone
  (normalized_km price : Series) (mileages_arg : DataFrame)
  (learning_rate t' t : float) (iterations : Z) (w : World) :
  has_normalized normalized_km w ->
  mileages_arg !! "price" = Some price ->
  (t' <? t)%float = true ->
  exists (k k' : Z) (theta theta' : ndarray2),
    gradient_descent mileages_arg learning_rate t iterations w =
      (Ok (k, theta), w)
    /\ gradient_descent mileages_arg learning_rate t' iterations w =
      (Ok (k', theta'), w)
    /\ k <= k'.
Proof.
  intros Hn Hprice Hlt.
  rewrite !(gradient_descent_found normalized_km price mileages_arg
              learning_rate Hprice _ iterations w Hn).
  pose proof (descent_result_monotone normalized_km price learning_rate
                t' t iterations Hlt) as Hmono.
  destruct (descent_result normalized_km price learning_rate t iterations)
    as [k theta].
  destruct (descent_result normalized_km price learning_rate t' iterations)
    as [k' theta'].
  exists k, k', theta, theta'. repeat split. exact Hmono.
Qed.

Lemma gradient_descent_threshold_monotone_witness :
  exists (k k' : Z) (theta theta' : ndarray2),
    gradient_descent three_cars 0.5 1000 500 (started three_cars) =
      (Ok (k, theta), started three_cars)
    /\ gradient_descent three_cars 0.5 100 500 (started three_cars) =
      (Ok (k', theta'), started three_cars)
    /\ k <= k'.
Proof.
  apply (gradient_descent_threshold_monotone
           (normalized_of three_cars) (price_of three_cars) three_cars
           0.5 100 1000 500 (started three_cars)).
  - vm_compute. reflexivity.
  - reflexivity.
  - vm_compute. reflexivity.
Defined.

Lemma gradient_descent_loop_price_only (df1 df2 : DataFrame)
  (learning_rate convergence : float) (iterations : Z) (n : nat) :
  df1 !! "price" = df2 !! "price" ->
  forall (i : Z) (theta : ndarray2) (w : World),
    gradient_descent_loop n i df1 learning_rate convergence iterations theta w
    = gradient_descent_loop n i df2 learning_rate convergence iterations
        theta w.
Proof.
  intros Hprice. induction n as [|n IH]; intros i theta w; [reflexivity|].
  simpl. run_method. rewrite Hprice.
  destruct (mileages (self w) !! "normalized_km") as [nkm|]; [|reflexivity].
  destruct (df2 !! "price") as [price|]; [|reflexivity].
  cbv beta iota.
  destruct (convergence_threshold_reached _ theta convergence);
    [reflexivity | apply IH].
Qed.

(** C10. [gradient_descent] reads its [DataFrame] argument through the
    [price] column only: two arguments with the same [price] column give
    the same result on the same trainer, whatever their other columns. *)
Theorem gradient_descent_depends_on_price_only (df1 df2 : DataFrame)
  (learning_rate convergence : float) (iterations : Z) (w : World) :
  df1 !! "price" = df2 !! "price" ->
  gradient_descent df1 learning_rate convergence iterations w =
  gradient_descent df2 learning_rate convergence iterations w.
Proof.
  intros Hprice. unfold gradient_descent.
  apply gradient_descent_loop_price_only. exact Hprice.
Qed.

Lemma gradient_descent_depends_on_price_only_witness :
  gradient_descent three_cars 0.5 100 500 (started three_cars) =
  gradient_descent (frame_of [1; 2]%float [8000; 6000; 4000]%float)
    0.5 100 500 (started three_cars).
Proof.
  apply (gradient_descent_depends_on_price_only three_cars
           (frame_of [1; 2]%float [8000; 6000; 4000]%float)
           0.5 100 500 (started three_cars)).
  vm_compute. reflexivity.
Defined.

(** ** The loops of [hyperparameter_tuning] *)

Lemma for_each_app {A} (xs ys : list A) (body : A -> M unit) (w : World) :
  for_each (xs ++ ys) body w =
  match for_each xs body w with
  | (Ok _, w1) => for_each ys body w1
  | (Raise e, w1) => (Raise e, w1)
  end.
Proof.
  revert w. induction xs as [|x xs IH]; intros w; simpl; [reflexivity|].
  unfold bind. destruct (body x w) as [[[]|e] w1]; [apply IH | reflexivity].
Qed.

Lemma for_each_map {A B} (g : A -> B) (xs : list A) (body : B -> M unit)
  (w : World) :
  for_each (map g xs) body w = for_each xs (fun x => body (g x)) w.
Proof.
  revert w. induction xs as [|x xs IH]; intros w; simpl; [reflexivity|].
  unfold bind. destruct (body (g x) w) as [[[]|e] w1];
    [apply IH | reflexivity].
Qed.

(** The nested loops visit the pairs of [grid] one after the other. *)
Lemma sweep_grid (mileages_arg : DataFrame)
  (learning_rates convergence_thresholds : list float) (w : World) :
  sweep mileages_arg learning_rates convergence_thresholds w =
  for_each (grid learning_rates convergence_thresholds)
    (try_pair mileages_arg) w.
Proof.
  unfold sweep, grid. revert w.
  induction learning_rates as [|lr lrs IH]; intros w; [reflexivity|].
  cbn [for_each flat_map]. rewrite for_each_app, for_each_map.
  unfold bind, try_pair at 1. cbn [fst snd].
  destruct (for_each convergence_thresholds _ w) as [[[]|e] w1];
    [apply IH | reflexivity].
Qed.

Lemma update_hyperparameters_spec (iters : Z) (lr ct : float)
  (theta : ndarray2) (w : World) :
  update_hyperparameters iters lr ct theta w =
  (Ok tt, with_best iters lr ct theta w).
Proof. reflexivity. Qed.

Lemma iter_le_refl (a : IterCount) : iter_le a a.
Proof. destruct a; simpl; [exact I | lia]. Qed.

Lemma iter_le_trans (a b c : IterCount) :
  iter_le a b -> iter_le b c -> iter_le a c.
Proof. destruct a, b, c; simpl; try tauto; lia. Qed.

Lemma int_lt_iter_le (n : Z) (b : IterCount) :
  int_lt n b = true -> iter_le (Finite n) b.
Proof. destruct b; simpl; [tauto | lia]. Qed.

Section Sweep.

Variables (normalized_km price : Series) (mileages_arg : DataFrame).
Hypothesis Hprice : mileages_arg !! "price" = Some price.

Local Abbreviation iters_of := (candidate_iters normalized_km price).
Local Abbreviation theta_of := (candidate_theta normalized_km price).
Local Abbreviation first_minimum := (first_minimum normalized_km price).

Lemma evaluate_found (c : float * float) (w : World) :
  has_normalized normalized_km w ->
  evaluate mileages_arg c w = Ok (iters_of c, theta_of c).
Proof.
  intros Hn. unfold evaluate, outcome.
  rewrite (gradient_descent_found normalized_km price mileages_arg
             (fst c) Hprice (snd c) default_iterations w Hn).
  unfold candidate_iters, candidate_theta. simpl.
  destruct (descent_result _ _ _ _ _); reflexivity.
Qed.

Lemma iters_of_bounds (c : float * float) :
  1 <= iters_of c <= default_iterations.
Proof.
  apply descent_result_bounds. unfold default_iterations. lia.
Qed.

Lemma try_pair_found (c : float * float) (w : World) :
  has_normalized normalized_km w ->
  try_pair mileages_arg c w =
  (Ok tt,
   if int_lt (iters_of c) (best_iterations (self w))
   then with_best (iters_of c) (fst c) (snd c) (theta_of c) w
   else w).
Proof.
  intros Hn. unfold try_pair, try_candidate, bind at 1.
  rewrite (gradient_descent_found normalized_km price mileages_arg
             (fst c) Hprice (snd c) default_iterations w Hn).
  unfold candidate_iters, candidate_theta.
  destruct (descent_result _ _ _ _ _) as [n theta]. simpl.
  unfold bind, gets.
  destruct (int_lt n (best_iterations (self w))); reflexivity.
Qed.

Lemma first_minimum_here (c0 : float * float)
  (cands : list (float * float)) :
  (forall (j : nat) (c' : float * float),
     cands !! j = Some c' -> iters_of c0 <= iters_of c') ->
  first_minimum (c0 :: cands) 0 c0.
Proof.
  intros Hall. split; [reflexivity|]. intros [|j] c' Hj; simpl in Hj.
  - injection Hj as <-. lia.
  - specialize (Hall j c' Hj). lia.
Qed.

Lemma first_minimum_later (c0 c : float * float)
  (cands : list (float * float)) (k : nat) :
  first_minimum cands k c ->
  iters_of c < iters_of c0 ->
  first_minimum (c0 :: cands) (S k) c.
Proof.
  intros [Hk Hmin] Hless. split; [exact Hk|].
  intros [|j] c' Hj; simpl in Hj.
  - injection Hj as <-. lia.
  - destruct (Hmin j c' Hj) as [Hle Hstrict]. split; [exact Hle|].
    intros Hjk. apply Hstrict. lia.
Qed.

(** From a recorded best [b], the loop ends either as it started, no
    candidate having fewer than [b] iterations, or on the first of the
    candidates with the fewest iterations. *)
Lemma for_each_from_finite (cands : list (float * float)) :
  forall (w : World) (b : Z),
    has_normalized normalized_km w ->
    best_iterations (self w) = Finite b ->
    exists w' : World,
      for_each cands (try_pair mileages_arg) w = (Ok tt, w')
      /\ ((w' = w
           /\ forall (j : nat) (c' : float * float),
                cands !! j = Some c' -> b <= iters_of c')
          \/ exists (k : nat) (c : float * float),
               first_minimum cands k c
               /\ iters_of c < b
               /\ w' = with_best (iters_of c) (fst c) (snd c) (theta_of c) w).
Proof.
  induction cands as [|c0 cands IH]; intros w b Hn Hb.
  - exists w. split; [reflexivity|]. left. split; [reflexivity|].
    intros j c' Hj. rewrite lookup_nil in Hj. discriminate.
  - cbn [for_each]. unfold bind. rewrite (try_pair_found c0 w Hn), Hb.
    cbn [int_lt].
    destruct (Z.ltb_spec (iters_of c0) b) as [Hlt | Hge].
    + set (w1 := with_best (iters_of c0) (fst c0) (snd c0) (theta_of c0) w).
      destruct (IH w1 (iters_of c0)) as (w' & Hrun & Hcase);
        [exact Hn | reflexivity |].
      exists w'. split; [exact Hrun|]. right.
      destruct Hcase as [[-> Hall] | (k & c & Hmin & Hless & ->)].
      * exists 0%nat, c0. split; [apply first_minimum_here; exact Hall|].
        split; [exact Hlt | reflexivity].
      * exists (S k), c.
        split; [apply first_minimum_later; assumption|].
        split; [lia | reflexivity].
    + destruct (IH w b Hn Hb) as (w' & Hrun & Hcase).
      exists w'. split; [exact Hrun|].
      destruct Hcase as [[-> Hall] | (k & c & Hmin & Hless & ->)].
      * left. split; [reflexivity|].
        intros [|j] c' Hj; simpl in Hj.
        -- injection Hj as <-. lia.
        -- apply (Hall j c' Hj).
      * right. exists (S k), c.
        split; [apply first_minimum_later; [exact Hmin | lia]|].
        split; [exact Hless | reflexivity].
Qed.

End Sweep.

Section SweepFromStart.

Variables (normalized_km price : Series) (mileages_arg : DataFrame).
Hypothesis Hprice : mileages_arg !! "price" = Some price.

Local Abbreviation iters_of := (candidate_iters normalized_km price).
Local Abbreviation theta_of := (candidate_theta normalized_km price).

(** From [float("inf")] the first candidate is always recorded. *)
Lemma for_each_from_fresh (cands : list (float * float)) (w : World) :
  cands <> [] ->
  has_normalized normalized_km w ->
  best_iterations (self w) = PosInf ->
  exists (k : nat) (c : float * float),
    first_minimum normalized_km price cands k c
    /\ for_each cands (try_pair mileages_arg) w =
       (Ok tt, with_best (iters_of c) (fst c) (snd c) (theta_of c) w).
Proof.
  destruct cands as [|c0 cands]; [congruence|]. intros _ Hn Hinf.
  cbn [for_each]. unfold bind.
  rewrite (try_pair_found normalized_km price mileages_arg Hprice c0 w Hn).
  rewrite Hinf. cbn [int_lt].
  set (w1 := with_best (iters_of c0) (fst c0) (snd c0) (theta_of c0) w).
  destruct (for_each_from_finite normalized_km price mileages_arg Hprice
              cands w1 (iters_of c0)) as (w' & Hrun & Hcase);
    [exact Hn | reflexivity |].
  rewrite Hrun.
  destruct Hcase as [[-> Hall] | (k & c & Hmin & Hless & ->)].
  - exists 0%nat, c0. split; [|reflexivity].
    apply first_minimum_here. exact Hall.
  - exists (S k), c. split; [|reflexivity].
    apply first_minimum_later; assumption.
Qed.

(** With both columns there the loop never raises; it keeps the sample
    data and the files, and the recorded count never goes up. *)
Lemma for_each_runs (cands : list (float * float)) :
  forall w : World,
    has_normalized normalized_km w ->
    exists w' : World,
      for_each cands (try_pair mileages_arg) w = (Ok tt, w')
      /\ has_normalized normalized_km w'
      /\ same_data w w'
      /\ files w' = files w
      /\ iter_le (best_iterations (self w')) (best_iterations (self w)).
Proof.
  induction cands as [|c cands IH]; intros w Hn.
  - exists w. repeat split; try reflexivity; [exact Hn | apply iter_le_refl].
  - cbn [for_each]. unfold bind.
    rewrite (try_pair_found normalized_km price mileages_arg Hprice c w Hn).
    destruct (int_lt (iters_of c) (best_iterations (self w))) eqn:Hlt.
    + destruct (IH (with_best (iters_of c) (fst c) (snd c) (theta_of c) w))
        as (w' & Hrun & Hn' & (Hm & Hmean & Hstd) & Hfiles & Hle);
        [exact Hn|].
      exists w'. repeat split; try assumption.
      eapply iter_le_trans; [exact Hle|]. apply int_lt_iter_le. exact Hlt.
    + apply IH. exact Hn.
Qed.

End SweepFromStart.

Lemma grid_nonempty (learning_rates convergence_thresholds : list float) :
  learning_rates <> [] -> convergence_thresholds <> [] ->
  grid learning_rates convergence_thresholds <> [].
Proof.
  destruct learning_rates as [|lr lrs]; [congruence|].
  destruct convergence_thresholds as [|ct cts]; [congruence|].
  intros _ _. discriminate.
Qed.

Lemma grid_empty (learning_rates convergence_thresholds : list float) :
  learning_rates = [] \/ convergence_thresholds = [] ->
  grid learning_rates convergence_thresholds = [].
Proof.
  intros [-> | ->]; [reflexivity|].
  unfold grid. induction learning_rates as [|lr lrs IH]; [reflexivity|].
  simpl. exact IH.
Qed.

Lemma hyperparameter_tuning_unfold (mileages_arg : DataFrame)
  (learning_rates convergence_thresholds : list float) (w : World) :
  hyperparameter_tuning mileages_arg learning_rates convergence_thresholds w =
  match for_each (grid learning_rates convergence_thresholds)
          (try_pair mileages_arg) w with
  | (Ok _, w1) =>
      match model_to_json w1 with
      | (Ok _, w2) => (Ok (best_theta (self w2)), w2)
      | (Raise e, w2) => (Raise e, w2)
      end
  | (Raise e, w1) => (Raise e, w1)
  end.
Proof.
  rewrite <- sweep_grid. unfold hyperparameter_tuning, sweep, bind, gets.
  reflexivity.
Qed.

(** ** What no method changes *)

Lemma gradient_descent_loop_state (mileages_arg : DataFrame)
  (learning_rate convergence : float) (iterations : Z) (n : nat) :
  forall (i : Z) (theta : ndarray2) (w : World),
    final_state
      (gradient_descent_loop n i mileages_arg learning_rate convergence
         iterations theta) w = w.
Proof.
  unfold final_state.
  induction n as [|n IH]; intros i theta w; [reflexivity|].
  simpl. run_method.
  destruct (mileages (self w) !! "normalized_km") as [nkm|]; [|reflexivity].
  destruct (mileages_arg !! "price") as [price|]; [|reflexivity].
  cbv beta iota.
  destruct (convergence_threshold_reached _ theta convergence);
    [reflexivity | apply IH].
Qed.

Lemma same_data_refl (w : World) : same_data w w.
Proof. repeat split. Qed.

Lemma same_data_trans (w1 w2 w3 : World) :
  same_data w1 w2 -> same_data w2 w3 -> same_data w1 w3.
Proof.
  unfold same_data. intros (A1 & B1 & C1) (A2 & B2 & C2).
  repeat split; congruence.
Qed.

Lemma try_candidate_same_data (mileages_arg : DataFrame) (lr ct : float)
  (w : World) :
  same_data w (final_state (try_candidate mileages_arg lr ct) w).
Proof.
  unfold final_state, try_candidate, bind at 1.
  pose proof (gradient_descent_loop_state mileages_arg lr ct
                default_iterations (Z.to_nat default_iterations) 0 zeros2 w)
    as Hstate.
  unfold final_state in Hstate. unfold gradient_descent.
  destruct (gradient_descent_loop _ _ _ _ _ _ _ w) as [[[n theta]|e] w1];
    simpl in Hstate; subst w1; [|apply same_data_refl].
  unfold bind, gets.
  destruct (int_lt n (best_iterations (self w))); simpl; repeat split.
Qed.

Lemma for_each_same_data {A} (body : A -> M unit) (xs : list A) :
  (forall (x : A) (w : World), same_data w (final_state (body x) w)) ->
  forall w : World, same_data w (final_state (for_each xs body) w).
Proof.
  intros Hbody. unfold final_state in *.
  induction xs as [|x xs IH]; intros w; simpl; [apply same_data_refl|].
  unfold bind. specialize (Hbody x w).
  destruct (body x w) as [[[]|e] w1]; simpl in *; [|exact Hbody].
  eapply same_data_trans; [exact Hbody | apply IH].
Qed.

Lemma model_to_json_same_data (w : World) :
  same_data w (final_state model_to_json w).
Proof.
  unfold final_state, model_to_json. run_method.
  destruct (best_theta (self w)); simpl; repeat split.
Qed.

Lemma hyperparameter_tuning_same_data (mileages_arg : DataFrame)
  (learning_rates convergence_thresholds : list float) (w : World) :
  same_data w
    (final_state
       (hyperparameter_tuning mileages_arg learning_rates
          convergence_thresholds) w).
Proof.
  unfold final_state. rewrite hyperparameter_tuning_unfold.
  pose proof (for_each_same_data (try_pair mileages_arg)
                (grid learning_rates convergence_thresholds)
                (fun c w0 =>
                   try_candidate_same_data mileages_arg (fst c) (snd c) w0) w)
    as Hloop.
  unfold final_state in Hloop.
  destruct (for_each _ _ w) as [[[]|e] w1]; simpl in Hloop; [|exact Hloop].
  pose proof (model_to_json_same_data w1) as Hjson.
  unfold final_state in Hjson.
  destruct (model_to_json w1) as [[[]|e] w2]; simpl in *;
    eapply same_data_trans; eauto.
Qed.

(** ** The constructor *)

Lemma Trainer_init_found (data : DataFrame) (km : Series) :
  data !! "km" = Some km ->
  Trainer_init data =
  Ok (MkTrainer
        (<["normalized_km" :=
             broadcast
               (fun x => ((x - series_mean km) / series_std km)%float) km]>
           data)
        (series_mean km) (series_std km) None None PosInf None).
Proof.
  intros Hkm. unfold Trainer_init, getitem. rewrite Hkm. reflexivity.
Qed.

Lemma Trainer_init_inv (data : DataFrame) (tr : Trainer) :
  Trainer_init data = Ok tr ->
  exists km : Series,
    data !! "km" = Some km
    /\ tr =
       MkTrainer
         (<["normalized_km" :=
              broadcast
                (fun x => ((x - series_mean km) / series_std km)%float) km]>
            data)
         (series_mean km) (series_std km) None None PosInf None.
Proof.
  intros Hinit. destruct (data !! "km") as [km|] eqn:Hkm.
  - exists km. split; [reflexivity|].
    rewrite (Trainer_init_found data km Hkm) in Hinit. congruence.
  - unfold Trainer_init, getitem in Hinit. rewrite Hkm in Hinit.
    discriminate.
Qed.

Lemma Trainer_init_normalized (data : DataFrame) (tr : Trainer)
  (fs : gmap string (list (string * float))) :
  Trainer_init data = Ok tr ->
  exists normalized_km : Series,
    has_normalized normalized_km (MkWorld tr fs)
    /\ best_iterations tr = PosInf.
Proof.
  intros Hinit. destruct (Trainer_init_inv data tr Hinit) as (km & _ & ->).
  eexists. split; [|reflexivity].
  unfold has_normalized. simpl. apply lookup_insert_eq.
Qed.

(** ** The search from a new trainer *)

Lemma hyperparameter_tuning_from_fresh
  (normalized_km price : Series) (mileages_arg : DataFrame)
  (learning_rates convergence_thresholds : list float) (w : World) :
  has_normalized normalized_km w ->
  mileages_arg !! "price" = Some price ->
  best_iterations (self w) = PosInf ->
  learning_rates <> [] ->
  convergence_thresholds <> [] ->
  exists (w' : World) (k : nat) (c : float * float),
    first_minimum normalized_km price
      (grid learning_rates convergence_thresholds) k c
    /\ hyperparameter_tuning mileages_arg learning_rates
         convergence_thresholds w
       = (Ok (Some (candidate_theta normalized_km price c)), w')
    /\ self w' =
       self (with_best (candidate_iters normalized_km price c) (fst c) (snd c)
               (candidate_theta normalized_km price c) w).
Proof.
  intros Hn Hprice Hinf Hlrs Hcts.
  destruct (for_each_from_fresh normalized_km price mileages_arg Hprice
              (grid learning_rates convergence_thresholds) w
              (grid_nonempty _ _ Hlrs Hcts) Hn Hinf)
    as (k & c & Hmin & Hrun).
  rewrite hyperparameter_tuning_unfold, Hrun.
  eexists _, k, c. split; [exact Hmin|]. split; reflexivity.
Qed.

(** ** Properties of [hyperparameter_tuning] *)

(** C3. For non-empty candidate lists, the two loops visit every pair of
    the cartesian product, learning rates outside and thresholds inside, in
    the order given; a candidate replaces the best result only when its
    iteration count is strictly below the recorded one; and once the grid
    is exhausted the best result is the first candidate, in that order,
    with the fewest iterations. *)
Theorem hyperparameter_tuning_keeps_first_minimum
  (normalized_km price : Series) (mileages_arg : DataFrame)
  (learning_rates convergence_thresholds : list float) (w : World) :
  has_normalized normalized_km w ->
  mileages_arg !! "price" = Some price ->
  best_iterations (self w) = PosInf ->
  learning_rates <> [] ->
  convergence_thresholds <> [] ->
  sweep mileages_arg learning_rates convergence_thresholds w =
    for_each (grid learning_rates convergence_thresholds)
      (try_pair mileages_arg) w
  /\ (forall (w1 : World) (c : float * float) (n : Z) (theta : ndarray2),
        has_normalized normalized_km w1 ->
        evaluate mileages_arg c w1 = Ok (n, theta) ->
        try_pair mileages_arg c w1 =
        (Ok tt,
         if int_lt n (best_iterations (self w1))
         then with_best n (fst c) (snd c) theta w1
         else w1))
  /\ exists (w' : World) (k : nat) (c : float * float) (n : Z)
       (theta : ndarray2),
       hyperparameter_tuning mileages_arg learning_rates
         convergence_thresholds w = (Ok (Some theta), w')
       /\ grid learning_rates convergence_thresholds !! k = Some c
       /\ evaluate mileages_arg c w = Ok (n, theta)
       /\ best_iterations (self w') = Finite n
       /\ best_learning_rate (self w') = Some (fst c)
       /\ best_convergence_threshold (self w') = Some (snd c)
       /\ best_theta (self w') = Some theta
       /\ forall (j : nat) (c' : float * float) (n' : Z) (theta' : ndarray2),
            grid learning_rates convergence_thresholds !! j = Some c' ->
            evaluate mileages_arg c' w = Ok (n', theta') ->
            n <= n' /\ ((j < k)%nat -> n < n').
Proof.
  intros Hn Hprice Hinf Hlrs Hcts. split; [apply sweep_grid|]. split.
  - intros w1 c n theta Hn1 Heval.
    rewrite (evaluate_found normalized_km price mileages_arg Hprice c w1 Hn1)
      in Heval.
    injection Heval as <- <-.
    apply (try_pair_found normalized_km price mileages_arg Hprice c w1 Hn1).
  - destruct (hyperparameter_tuning_from_fresh normalized_km price
                mileages_arg learning_rates convergence_thresholds w
                Hn Hprice Hinf Hlrs Hcts)
      as (w' & k & c & [Hk Hmin] & Hrun & Hself).
    exists w', k, c, (candidate_iters normalized_km price c),
      (candidate_theta normalized_km price c).
    split; [exact Hrun|]. split; [exact Hk|]. split.
    { apply (evaluate_found normalized_km price mileages_arg Hprice c w Hn). }
    rewrite Hself. repeat (split; [reflexivity|]).
    intros j c' n' theta' Hj Heval.
    rewrite (evaluate_found normalized_km price mileages_arg Hprice c' w Hn)
      in Heval.
    injection Heval as <- <-. apply (Hmin j c' Hj).
Qed.

Lemma hyperparameter_tuning_keeps_first_minimum_witness :
  exists (w' : World) (theta : ndarray2),
    hyperparameter_tuning three_cars [0.125; 0.5]%float [1000; 100]%float
      (started three_cars) = (Ok (Some theta), w')
    /\ best_learning_rate (self w') = Some 0.125%float
    /\ best_convergence_threshold (self w') = Some 1000%float.
Proof.
  destruct (hyperparameter_tuning_keeps_first_minimum
              (normalized_of three_cars) (price_of three_cars) three_cars
              [0.125; 0.5]%float [1000; 100]%float (started three_cars))
    as (_ & _ & w' & k & c & n & theta & Hrun & _).
  - vm_compute. reflexivity.
  - reflexivity.
  - vm_compute. reflexivity.
  - discriminate.
  - discriminate.
  - exists w', theta. split; [exact Hrun|].
    vm_compute in Hrun. injection Hrun as _ <-. split; reflexivity.
Defined.

(** C7. After [Trainer()] the best result holds [float("inf")] and no
    theta.  At every candidate of a search started there, the best result
    is replaced only when the candidate has strictly fewer iterations than
    the recorded count, its four fields change together, and the recorded
    count never goes up: not before the candidate, not at it, not after. *)
Theorem best_result_only_improves
  (data mileages_arg : DataFrame) (price : Series) (tr : Trainer)
  (fs : gmap string (list (string * float)))
  (learning_rates convergence_thresholds : list float)
  (pre post : list (float * float)) (lr ct : float) :
  Trainer_init data = Ok tr ->
  mileages_arg !! "price" = Some price ->
  grid learning_rates convergence_thresholds = pre ++ (lr, ct) :: post ->
  (best_iterations tr = PosInf /\ best_theta tr = None
   /\ best_learning_rate tr = None /\ best_convergence_threshold tr = None)
  /\ exists (w1 w2 w3 : World) (n : Z) (theta : ndarray2),
       for_each pre (try_pair mileages_arg) (MkWorld tr fs) = (Ok tt, w1)
       /\ evaluate mileages_arg (lr, ct) w1 = Ok (n, theta)
       /\ try_candidate mileages_arg lr ct w1 = (Ok tt, w2)
       /\ for_each post (try_pair mileages_arg) w2 = (Ok tt, w3)
       /\ sweep mileages_arg learning_rates convergence_thresholds
            (MkWorld tr fs) = (Ok tt, w3)
       /\ ((int_lt n (best_iterations (self w1)) = true
            /\ best_iterations (self w2) = Finite n
            /\ best_learning_rate (self w2) = Some lr
            /\ best_convergence_threshold (self w2) = Some ct
            /\ best_theta (self w2) = Some theta)
           \/ (int_lt n (best_iterations (self w1)) = false /\ w2 = w1))
       /\ iter_le (best_iterations (self w1)) (best_iterations tr)
       /\ iter_le (best_iterations (self w2)) (best_iterations (self w1))
       /\ iter_le (best_iterations (self w3)) (best_iterations (self w2)).
Proof.
  intros Hinit Hprice Hgrid.
  destruct (Trainer_init_normalized data tr fs Hinit) as (nkm & Hn & Hinf).
  split.
  { destruct (Trainer_init_inv data tr Hinit) as (km & _ & ->).
    repeat split. }
  destruct (for_each_runs nkm price mileages_arg Hprice pre (MkWorld tr fs) Hn)
    as (w1 & Hpre & Hn1 & _ & _ & Hle1).
  pose proof (try_pair_found nkm price mileages_arg Hprice (lr, ct) w1 Hn1)
    as Htry.
  cbn [fst snd] in Htry.
  set (n := candidate_iters nkm price (lr, ct)) in *.
  set (theta := candidate_theta nkm price (lr, ct)) in *.
  set (w2 := if int_lt n (best_iterations (self w1))
             then with_best n lr ct theta w1 else w1) in *.
  assert (Hn2 : has_normalized nkm w2).
  { unfold w2. destruct (int_lt n (best_iterations (self w1))); exact Hn1. }
  destruct (for_each_runs nkm price mileages_arg Hprice post w2 Hn2)
    as (w3 & Hpost & _ & _ & _ & Hle3).
  exists w1, w2, w3, n, theta.
  split; [exact Hpre|]. split.
  { apply (evaluate_found nkm price mileages_arg Hprice (lr, ct) w1 Hn1). }
  split; [exact Htry|]. split; [exact Hpost|]. split.
  { rewrite sweep_grid, Hgrid, for_each_app, Hpre. cbn [for_each].
    unfold bind. rewrite Htry. exact Hpost. }
  split.
  { unfold w2. destruct (int_lt n (best_iterations (self w1))).
    - left. repeat split.
    - right. split; reflexivity. }
  split; [exact Hle1|]. split; [|exact Hle3].
  unfold w2. destruct (int_lt n (best_iterations (self w1))) eqn:Hlt.
  - apply int_lt_iter_le. exact Hlt.
  - apply iter_le_refl.
Qed.

Lemma best_result_only_improves_witness :
  exists (w1 w2 : World),
    for_each [(0.5, 100)]%float (try_pair three_cars) (started three_cars)
      = (Ok tt, w1)
    /\ try_candidate three_cars 0.5 1000 w1 = (Ok tt, w2)
    /\ iter_le (best_iterations (self w2)) (best_iterations (self w1)).
Proof.
  destruct (best_result_only_improves three_cars three_cars
              (price_of three_cars) (self (started three_cars)) ∅
              [0.5]%float [100; 1000]%float
              [(0.5, 100)]%float [] 0.5 1000)
    as (_ & w1 & w2 & w3 & n & theta & Hpre & _ & Htry & _ & _ & _ & _
        & Hle & _).
  - vm_compute. reflexivity.
  - reflexivity.
  - reflexivity.
  - exists w1, w2. repeat split; assumption.
Defined.

(** C9. No run of [gradient_descent] changes the state at all, and a whole
    [hyperparameter_tuning] sweep, whether it returns or raises, leaves the
    trainer's frame (with its [normalized_km] column), [mean_km] and
    [std_km] as they were. *)
Theorem sample_data_never_mutated (mileages_arg : DataFrame)
  (learning_rate convergence : float) (iterations : Z)
  (learning_rates convergence_thresholds : list float) (w : World) :
  final_state
    (gradient_descent mileages_arg learning_rate convergence iterations) w = w
  /\ same_data w
       (final_state
          (hyperparameter_tuning mileages_arg learning_rates
             convergence_thresholds) w).
Proof.
  split.
  - apply gradient_descent_loop_state.
  - apply hyperparameter_tuning_same_data.
Qed.

(** ** The sample programs, run *)

Example three_cars_counts :
  map (candidate_iters (normalized_of three_cars) (price_of three_cars))
    (grid [0.125; 0.5; 1]%float [1000; 100]%float)
  = [1; 17; 3; 6; 2; 4].
Proof. vm_compute. reflexivity. Qed.

Example three_cars_search :
  let w' :=
    final_state
      (hyperparameter_tuning three_cars [0.125; 0.5; 1]%float
         [1000; 100]%float) (started three_cars) in
  best_iterations (self w') = Finite 1
  /\ best_learning_rate (self w') = Some 0.125%float
  /\ best_convergence_threshold (self w') = Some 1000%float
  /\ is_Some (files w' !! "model.json").
Proof. vm_compute. repeat split. eexists. reflexivity. Qed.

Example same_mileage_statistics :
  std_km (self (started same_mileage)) = 0%float
  /\ normalized_of same_mileage = [nan; nan].
Proof. vm_compute. split; reflexivity. Qed.

Example same_mileage_search :
  let r :=
    hyperparameter_tuning same_mileage [0.5]%float [100]%float
      (started same_mileage) in
  fst r = Ok (Some (Ndarray2 nan nan))
  /\ best_iterations (self (snd r)) = Finite 500
  /\ files (snd r) !! "model.json" =
     Some [("theta_0", nan); ("theta_1", nan);
           ("mean_km", 5%float); ("std_km", 0%float)].
Proof. vm_compute. repeat split. Qed.

Example one_car_statistics :
  std_km (self (started one_car)) = nan
  /\ normalized_of one_car = [nan]
  /\ length (distinct_samples (samples one_car)) = 1%nat.
Proof. vm_compute. repeat split. Qed.

Example one_car_search :
  let r :=
    hyperparameter_tuning one_car [0.5]%float [100]%float (started one_car) in
  fst r = Ok (Some (Ndarray2 nan nan))
  /\ best_iterations (self (snd r)) = Finite 500.
Proof. vm_compute. split; reflexivity. Qed.

Example empty_rates_on_new_trainer :
  hyperparameter_tuning three_cars [] [100]%float (started three_cars)
  = (Raise none_not_subscriptable, started three_cars).
Proof. vm_compute. reflexivity. Qed.

(** ** Inputs the code does not check *)

Lemma SFeqb_zero (a : spec_float) :
  SFeqb a (Prim2SF 0%float) = true -> exists s : bool, a = S754_zero s.
Proof.
  change (Prim2SF 0%float) with (S754_zero false).
  destruct a as [s|s| |s m e]; unfold SFeqb; simpl;
    try destruct s; try discriminate; eauto.
Qed.

(** Dividing by a zero never gives a finite value. *)
Lemma float_div_by_zero (x y : float) :
  (y =? 0)%float = true -> is_finite (x / y)%float = false.
Proof.
  rewrite FloatAxioms.eqb_spec. intros Hy.
  apply SFeqb_zero in Hy as [sy Hy].
  unfold is_finite, is_nan, is_infinity.
  rewrite !FloatAxioms.eqb_spec, FloatAxioms.abs_spec, FloatAxioms.div_spec, Hy.
  change (Prim2SF infinity) with (S754_infinity false).
  unfold SF64div.
  destruct (Prim2SF x) as [sx|sx| |sx mx ex]; simpl; try reflexivity;
    destruct sx, sy; reflexivity.
Qed.

(** C5, as the specification states it, fails: two cars with the same
    mileage give [std_km == 0], yet the constructor and the search both
    return normally. *)
Lemma zero_variance_not_reported :
  ~ zero_variance_reported same_mileage [0.5]%float [100]%float.
Proof.
  intros Hclaim.
  destruct (Hclaim [5; 5]%float) as [[e He] | (tr & e & w' & Hinit & Hrun)].
  - reflexivity.
  - vm_compute. reflexivity.
  - vm_compute in He. discriminate.
  - vm_compute in Hinit. injection Hinit as <-.
    vm_compute in Hrun. discriminate.
Qed.

(** C5, amended. A mileage column whose standard deviation is zero is not
    detected: the constructor returns a trainer that stores this
    [std_km], with a [normalized_km] value for every sample, none of them
    finite. *)
Theorem zero_variance_goes_undetected (data : DataFrame) (km : Series) :
  data !! "km" = Some km ->
  (series_std km =? 0)%float = true ->
  exists (tr : Trainer) (normalized : Series),
    Trainer_init data = Ok tr
    /\ std_km tr = series_std km
    /\ mileages tr !! "normalized_km" = Some normalized
    /\ length normalized = length km
    /\ Forall (fun v => is_finite v = false) normalized.
Proof.
  intros Hkm Hzero.
  eexists _, _. split; [apply (Trainer_init_found data km Hkm)|].
  split; [reflexivity|]. split; [apply lookup_insert_eq|].
  unfold broadcast. split; [apply length_map|].
  apply Forall_map, Forall_forall. intros x _. simpl.
  apply float_div_by_zero. exact Hzero.
Qed.

Lemma zero_variance_goes_undetected_witness :
  exists (tr : Trainer) (normalized : Series),
    Trainer_init same_mileage = Ok tr
    /\ std_km tr = series_std [5; 5]%float
    /\ mileages tr !! "normalized_km" = Some normalized
    /\ length normalized = 2%nat
    /\ Forall (fun v => is_finite v = false) normalized.
Proof.
  apply (zero_variance_goes_undetected same_mileage [5; 5]%float).
  - reflexivity.
  - vm_compute. reflexivity.
Defined.

(** C6, as the specification states it, fails: with a single car and
    non-empty candidate lists, the constructor and the search both return
    normally. *)
Lemma configuration_not_checked :
  ~ configuration_checked one_car [0.5]%float [100]%float.
Proof.
  intros Hclaim.
  destruct Hclaim as [[e He] | (tr & e & w' & Hinit & Hrun)].
  - right. right. vm_compute. lia.
  - vm_compute in He. discriminate.
  - vm_compute in Hinit. injection Hinit as <-.
    vm_compute in Hrun. discriminate.
Qed.

Lemma hyperparameter_tuning_empty (mileages_arg : DataFrame)
  (learning_rates convergence_thresholds : list float) (w : World) :
  learning_rates = [] \/ convergence_thresholds = [] ->
  best_theta (self w) = None ->
  hyperparameter_tuning mileages_arg learning_rates convergence_thresholds w
  = (Raise none_not_subscriptable, w).
Proof.
  intros Hempty Hnone.
  rewrite hyperparameter_tuning_unfold, (grid_empty _ _ Hempty).
  cbn [for_each]. unfold ret, model_to_json. run_method.
  rewrite Hnone. reflexivity.
Qed.

(** C6, amended. The search checks neither its candidate lists nor the
    sample set.  On a new trainer, when a candidate list is empty it runs
    the optimizer for no candidate, whatever frame it is given, and
    raises the [TypeError] of [model_to_json], the state staying as it
    was; when both lists are non-empty and the [price] column is there, it
    runs the optimizer whatever the number of samples and returns the best
    theta, recorded with a count between 1 and the default budget. *)
Theorem hyperparameter_tuning_checks_nothing
  (data any_frame : DataFrame) (price : Series) (tr : Trainer)
  (fs : gmap string (list (string * float)))
  (learning_rates convergence_thresholds no_rates no_thresholds : list float) :
  Trainer_init data = Ok tr ->
  data !! "price" = Some price ->
  learning_rates <> [] ->
  convergence_thresholds <> [] ->
  no_rates = [] \/ no_thresholds = [] ->
  hyperparameter_tuning any_frame no_rates no_thresholds (MkWorld tr fs)
    = (Raise none_not_subscriptable, MkWorld tr fs)
  /\ exists (theta : ndarray2) (w' : World) (n : Z),
       hyperparameter_tuning data learning_rates convergence_thresholds
         (MkWorld tr fs) = (Ok (Some theta), w')
       /\ best_iterations (self w') = Finite n
       /\ 1 <= n <= default_iterations.
Proof.
  intros Hinit Hprice Hlrs Hcts Hempty. split.
  - apply hyperparameter_tuning_empty; [exact Hempty|].
    destruct (Trainer_init_inv data tr Hinit) as (km & _ & ->). reflexivity.
  - destruct (Trainer_init_normalized data tr fs Hinit) as (nkm & Hn & Hinf).
    destruct (hyperparameter_tuning_from_fresh nkm price data
                learning_rates convergence_thresholds (MkWorld tr fs)
                Hn Hprice Hinf Hlrs Hcts)
      as (w' & k & c & _ & Hrun & Hself).
    exists (candidate_theta nkm price c), w', (candidate_iters nkm price c).
    split; [exact Hrun|]. split; [rewrite Hself; reflexivity|].
    apply iters_of_bounds.
Qed.

Lemma hyperparameter_tuning_checks_nothing_witness :
  hyperparameter_tuning ∅ [0.5]%float [] (started one_car)
    = (Raise none_not_subscriptable, started one_car)
  /\ exists (theta : ndarray2) (w' : World) (n : Z),
       hyperparameter_tuning one_car [0.5]%float [100]%float
         (started one_car) = (Ok (Some theta), w')
       /\ best_iterations (self w') = Finite n
       /\ 1 <= n <= default_iterations.
Proof.
  apply (hyperparameter_tuning_checks_nothing one_car ∅ [8000]%float
           (self (started one_car)) ∅ [0.5]%float [100]%float
           [0.5]%float []).
  - vm_compute. reflexivity.
  - reflexivity.
  - discriminate.
  - discriminate.
  - right. reflexivity.
Defined.

(** * Further properties of the code *)

(** ** [NaN] in float arithmetic *)

Lemma SFeqb_refl_nan (a : spec_float) : SFeqb a a = false <-> a = S754_nan.
Proof.
  split.
  - unfold SFeqb, SFcompare.
    destruct a as [s|s| |s m e]; try destruct s; simpl; try discriminate;
      try reflexivity.
    all: rewrite Z.compare_refl;
      change (Pos.compare_cont Eq m m) with (Pos.compare m m);
      rewrite Pos.compare_refl; simpl; discriminate.
  - intros ->. reflexivity.
Qed.

Lemma is_nan_spec (x : float) : is_nan x = true <-> Prim2SF x = S754_nan.
Proof.
  unfold is_nan. rewrite FloatAxioms.eqb_spec, negb_true_iff.
  apply SFeqb_refl_nan.
Qed.

Lemma is_nan_add_r (x y : float) :
  is_nan y = true -> is_nan (x + y)%float = true.
Proof.
  rewrite !is_nan_spec, FloatAxioms.add_spec. intros ->.
  destruct (Prim2SF x); reflexivity.
Qed.

Lemma is_nan_sub_l (x y : float) :
  is_nan x = true -> is_nan (x - y)%float = true.
Proof. rewrite !is_nan_spec, FloatAxioms.sub_spec. intros ->. reflexivity. Qed.

Lemma is_nan_sub_r (x y : float) :
  is_nan y = true -> is_nan (x - y)%float = true.
Proof.
  rewrite !is_nan_spec, FloatAxioms.sub_spec. intros ->.
  destruct (Prim2SF x); reflexivity.
Qed.

Lemma is_nan_mul_l (x y : float) :
  is_nan x = true -> is_nan (x * y)%float = true.
Proof. rewrite !is_nan_spec, FloatAxioms.mul_spec. intros ->. reflexivity. Qed.

Lemma is_nan_mul_r (x y : float) :
  is_nan y = true -> is_nan (x * y)%float = true.
Proof.
  rewrite !is_nan_spec, FloatAxioms.mul_spec. intros ->.
  destruct (Prim2SF x); reflexivity.
Qed.

Lemma is_nan_div_r (x y : float) :
  is_nan y = true -> is_nan (x / y)%float = true.
Proof.
  rewrite !is_nan_spec, FloatAxioms.div_spec. intros ->.
  destruct (Prim2SF x); reflexivity.
Qed.

Lemma is_nan_abs (x : float) : is_nan x = true -> is_nan (PrimFloat.abs x) = true.
Proof. rewrite !is_nan_spec, FloatAxioms.abs_spec. intros ->. reflexivity. Qed.

Lemma ltb_nan_l (x y : float) : is_nan x = true -> (x <? y)%float = false.
Proof. rewrite is_nan_spec, FloatAxioms.ltb_spec. intros ->. reflexivity. Qed.

Lemma abs_ltb_positive (x t : float) :
  (PrimFloat.abs x <? t)%float = true -> (0 <? t)%float = true.
Proof.
  rewrite !FloatAxioms.ltb_spec, FloatAxioms.abs_spec.
  change (Prim2SF 0%float) with (S754_zero false).
  unfold SFltb, SFcompare.
  destruct (Prim2SF x) as [s|s| |s m e], (Prim2SF t) as [st|st| |st mt et];
    simpl; try destruct st; try congruence.
Qed.

Lemma not_finite_zero_mul (x : float) :
  is_finite x = false -> is_nan (0 * x)%float = true.
Proof.
  unfold is_finite, is_infinity. rewrite negb_false_iff, orb_true_iff.
  rewrite !is_nan_spec, FloatAxioms.eqb_spec, FloatAxioms.abs_spec,
    FloatAxioms.mul_spec.
  change (Prim2SF 0%float) with (S754_zero false).
  change (Prim2SF infinity) with (S754_infinity false).
  intros [-> | H]; [reflexivity|].
  destruct (Prim2SF x) as [s|s| |s m e]; try reflexivity;
    unfold SFeqb in H; simpl in H; discriminate.
Qed.

Lemma is_nan_not_finite (x : float) : is_nan x = true -> is_finite x = false.
Proof. intros H. unfold is_finite. rewrite H. reflexivity. Qed.

(** ** The convergence test on [NaN] and on thresholds that are not
    positive *)

Lemma test_fails_on_nan (new_theta theta : ndarray2) (t : float) :
  has_nan theta = true ->
  convergence_threshold_reached new_theta theta t = false.
Proof.
  unfold has_nan, convergence_threshold_reached. intros H.
  apply orb_true_iff in H as [H | H].
  - rewrite (ltb_nan_l _ t (is_nan_abs _ (is_nan_sub_r _ _ H))). reflexivity.
  - rewrite (ltb_nan_l _ t (is_nan_abs _ (is_nan_sub_r _ _ H))).
    apply andb_false_r.
Qed.

Lemma test_fails_on_nan_update (new_theta theta : ndarray2) (t : float) :
  has_nan new_theta = true ->
  convergence_threshold_reached new_theta theta t = false.
Proof.
  unfold has_nan, convergence_threshold_reached. intros H.
  apply orb_true_iff in H as [H | H].
  - rewrite (ltb_nan_l _ t (is_nan_abs _ (is_nan_sub_l _ _ H))). reflexivity.
  - rewrite (ltb_nan_l _ t (is_nan_abs _ (is_nan_sub_l _ _ H))).
    apply andb_false_r.
Qed.

Lemma test_fails_without_positive_threshold (new_theta theta : ndarray2)
  (t : float) :
  (0 <? t)%float = false ->
  convergence_threshold_reached new_theta theta t = false.
Proof.
  intros Ht. unfold convergence_threshold_reached.
  destruct (PrimFloat.abs (at0 new_theta - at0 theta) <? t)%float eqn:H0;
    [|reflexivity].
  apply abs_ltb_positive in H0. congruence.
Qed.

Lemma step_theta_keeps_nan (normalized_km price : Series)
  (learning_rate : float) (theta : ndarray2) :
  has_nan theta = true ->
  has_nan (step_theta normalized_km price learning_rate theta) = true.
Proof.
  unfold has_nan, step_theta, calculate_new_theta. simpl. intros H.
  apply orb_true_iff in H as [H | H]; apply orb_true_iff; [left | right];
    apply is_nan_sub_l; exact H.
Qed.

Lemma theta_at_keeps_nan (normalized_km price : Series)
  (learning_rate : float) (k j : nat) :
  (k <= j)%nat ->
  has_nan (theta_at normalized_km price learning_rate k) = true ->
  has_nan (theta_at normalized_km price learning_rate j) = true.
Proof.
  intros Hkj Hk. induction Hkj as [|j Hkj IH]; [exact Hk|].
  simpl. apply step_theta_keeps_nan. exact IH.
Qed.

(** ** Edge behaviour of [gradient_descent] *)

(** X1. With a budget that is zero or negative the range is empty:
    [gradient_descent] reads no column, and returns the budget itself,
    even a negative one, with [theta] still at zero. *)
Theorem gradient_descent_empty_range (mileages_arg : DataFrame)
  (learning_rate convergence : float) (iterations : Z) (w : World) :
  iterations <= 0 ->
  gradient_descent mileages_arg learning_rate convergence iterations w =
  (Ok (iterations, zeros2), w).
Proof.
  intros Hle. unfold gradient_descent.
  replace (Z.to_nat iterations) with 0%nat by lia. reflexivity.
Qed.

Lemma gradient_descent_empty_range_witness :
  gradient_descent ∅ 0.5 100 (-3) (MkWorld blank_trainer ∅) =
  (Ok (-3, zeros2), MkWorld blank_trainer ∅).
Proof.
  apply (gradient_descent_empty_range ∅ 0.5 100 (-3)
           (MkWorld blank_trainer ∅)).
  lia.
Defined.

Lemma gradient_descent_by_columns (mileages_arg : DataFrame)
  (learning_rate convergence : float) (iterations : Z) (w : World) :
  0 < iterations ->
  match mileages (self w) !! "normalized_km", mileages_arg !! "price" with
  | None, _ =>
      gradient_descent mileages_arg learning_rate convergence iterations w
      = (Raise (KeyError "normalized_km"), w)
  | Some _, None =>
      gradient_descent mileages_arg learning_rate convergence iterations w
      = (Raise (KeyError "price"), w)
  | Some normalized_km, Some price =>
      gradient_descent mileages_arg learning_rate convergence iterations w
      = (Ok (descent_result normalized_km price learning_rate convergence
               iterations), w)
  end.
Proof.
  intros Hpos.
  destruct (mileages (self w) !! "normalized_km") as [nkm|] eqn:Hn.
  - destruct (mileages_arg !! "price") as [price|] eqn:Hprice.
    + apply (gradient_descent_found nkm price mileages_arg learning_rate
               Hprice convergence iterations w Hn).
    + unfold gradient_descent.
      destruct (Z.to_nat iterations) as [|n] eqn:Hnat; [lia|].
      simpl. run_method. rewrite Hn, Hprice. reflexivity.
  - unfold gradient_descent.
    destruct (Z.to_nat iterations) as [|n] eqn:Hnat; [lia|].
    simpl. run_method. rewrite Hn. reflexivity.
Qed.


(** X2. With a positive budget [gradient_descent] raises exactly when a
    column is missing: [KeyError] on [normalized_km] when the trainer's
    frame lacks it, whatever the argument holds; [KeyError] on [price] when
    only the argument's column is missing; and it returns otherwise.  The
    state is the same in the three cases. *)
Theorem gradient_descent_raises_on_missing_column (mileages_arg : DataFrame)
  (learning_rate convergence : float) (iterations : Z) (w : World) :
  0 < iterations ->
  match mileages (self w) !! "normalized_km", mileages_arg !! "price" with
  | None, _ =>
      gradient_descent mileages_arg learning_rate convergence iterations w
      = (Raise (KeyError "normalized_km"), w)
  | Some _, None =>
      gradient_descent mileages_arg learning_rate convergence iterations w
      = (Raise (KeyError "price"), w)
  | Some normalized_km, Some price =>
      gradient_descent mileages_arg learning_rate convergence iterations w
      = (Ok (descent_result normalized_km price learning_rate convergence
               iterations), w)
  end.
Proof.
  intros Hpos. apply gradient_descent_by_columns. exact Hpos.
Qed.

Lemma gradient_descent_raises_on_missing_column_witness :
  gradient_descent (frame_of [1; 2]%float []) 0.5 100 500
    (MkWorld blank_trainer ∅)
  = (Raise (KeyError "normalized_km"), MkWorld blank_trainer ∅).
Proof.
  apply (gradient_descent_raises_on_missing_column
           (frame_of [1; 2]%float []) 0.5 100 500 (MkWorld blank_trainer ∅)).
  lia.
Defined.

(** X3. A count below the budget means convergence: when
    [gradient_descent] returns [(k, theta)] with [k < iterations], the test
    passed in iteration [k - 1] and in none before, and [theta] is the
    value iteration [k - 1] started from. *)
Theorem gradient_descent_count_below_budget
  (normalized_km price : Series) (mileages_arg : DataFrame)
  (learning_rate convergence : float) (iterations : Z) (w w' : World)
  (k : Z) (theta : ndarray2) :
  has_normalized normalized_km w ->
  mileages_arg !! "price" = Some price ->
  gradient_descent mileages_arg learning_rate convergence iterations w
    = (Ok (k, theta), w') ->
  k < iterations ->
  exists i : nat,
    k = Z.of_nat i + 1
    /\ theta = theta_at normalized_km price learning_rate i
    /\ test_at normalized_km price learning_rate convergence i = true
    /\ forall j : nat, (j < i)%nat ->
         test_at normalized_km price learning_rate convergence j = false.
Proof.
  intros Hn Hprice Hrun Hk.
  rewrite (gradient_descent_found normalized_km price mileages_arg
             learning_rate Hprice convergence iterations w Hn) in Hrun.
  injection Hrun as Hres _.
  destruct (descent_result_cases normalized_km price learning_rate
              convergence iterations)
    as [(m & Hm & Hbefore & Hat & Hres') | (_ & Hres')];
    rewrite Hres' in Hres; injection Hres as <- <-.
  - exists m. repeat split; assumption.
  - lia.
Qed.

Lemma gradient_descent_count_below_budget_witness :
  exists i : nat,
    3 = Z.of_nat i + 1
    /\ theta_at (normalized_of three_cars) (price_of three_cars) 0.5 2
       = theta_at (normalized_of three_cars) (price_of three_cars) 0.5 i
    /\ test_at (normalized_of three_cars) (price_of three_cars) 0.5 1000 i
       = true
    /\ forall j : nat, (j < i)%nat ->
         test_at (normalized_of three_cars) (price_of three_cars) 0.5 1000 j
         = false.
Proof.
  apply (gradient_descent_count_below_budget
           (normalized_of three_cars) (price_of three_cars) three_cars
           0.5 1000 500 (started three_cars) (started three_cars)).
  - vm_compute. reflexivity.
  - reflexivity.
  - vm_compute. reflexivity.
  - lia.
Defined.

(** X4. A count equal to the budget does not tell convergence from
    exhaustion: with a positive budget, [gradient_descent] returns
    [iterations] exactly when no iteration before the last one passes the
    test, whether the last one passes it or not. *)
Theorem gradient_descent_count_is_budget
  (normalized_km price : Series) (mileages_arg : DataFrame)
  (learning_rate convergence : float) (iterations : Z) (w : World) :
  has_normalized normalized_km w ->
  mileages_arg !! "price" = Some price ->
  0 < iterations ->
  exists (k : Z) (theta : ndarray2),
    gradient_descent mileages_arg learning_rate convergence iterations w
      = (Ok (k, theta), w)
    /\ (k = iterations <->
        forall j : nat, Z.of_nat j < iterations - 1 ->
          test_at normalized_km price learning_rate convergence j = false).
Proof.
  intros Hn Hprice Hpos.
  rewrite (gradient_descent_found normalized_km price mileages_arg
             learning_rate Hprice convergence iterations w Hn).
  destruct (descent_result_cases normalized_km price learning_rate
              convergence iterations)
    as [(m & Hm & Hbefore & Hat & Hres) | (Hnone & Hres)]; rewrite Hres.
  - eexists _, _. split; [reflexivity|]. split.
    + intros Heq j Hj. apply Hbefore. lia.
    + intros Hnone.
      destruct (Z.eq_dec (Z.of_nat m + 1) iterations) as [Heq | Hne];
        [exact Heq|].
      rewrite (Hnone m) in Hat; [discriminate | lia].
  - eexists _, _. split; [reflexivity|]. split; [|reflexivity].
    intros _ j Hj. apply Hnone. lia.
Qed.

Lemma gradient_descent_count_is_budget_witness :
  exists (k : Z) (theta : ndarray2),
    gradient_descent three_cars 0.5 1000 3 (started three_cars)
      = (Ok (k, theta), started three_cars)
    /\ (k = 3 <->
        forall j : nat, Z.of_nat j < 3 - 1 ->
          test_at (normalized_of three_cars) (price_of three_cars)
            0.5 1000 j = false).
Proof.
  apply (gradient_descent_count_is_budget
           (normalized_of three_cars) (price_of three_cars) three_cars
           0.5 1000 3 (started three_cars)).
  - vm_compute. reflexivity.
  - reflexivity.
  - lia.
Defined.

(** X5. With a threshold that is zero, negative or [NaN] no iteration
    passes the test: [gradient_descent] uses its whole budget and returns
    it with the last updated [theta]. *)
Theorem gradient_descent_threshold_not_positive
  (normalized_km price : Series) (mileages_arg : DataFrame)
  (learning_rate convergence : float) (iterations : Z) (w : World) :
  has_normalized normalized_km w ->
  mileages_arg !! "price" = Some price ->
  (0 <? convergence)%float = false ->
  gradient_descent mileages_arg learning_rate convergence iterations w =
  (Ok (iterations,
       theta_at normalized_km price learning_rate (Z.to_nat iterations)), w).
Proof.
  intros Hn Hprice Ht.
  rewrite (gradient_descent_found normalized_km price mileages_arg
             learning_rate Hprice convergence iterations w Hn).
  f_equal. f_equal. apply descent_result_exhausted.
  intros j _. apply test_fails_without_positive_threshold. exact Ht.
Qed.

Lemma gradient_descent_threshold_not_positive_witness :
  gradient_descent three_cars 0.5 nan 4 (started three_cars) =
  (Ok (4, theta_at (normalized_of three_cars) (price_of three_cars) 0.5
            (Z.to_nat 4)),
   started three_cars).
Proof.
  apply (gradient_descent_threshold_not_positive
           (normalized_of three_cars) (price_of three_cars) three_cars
           0.5 nan 4 (started three_cars)).
  - vm_compute. reflexivity.
  - reflexivity.
  - vm_compute. reflexivity.
Defined.

Lemma descent_result_after_nan (normalized_km price : Series)
  (learning_rate convergence : float) (iterations : Z) (k : nat) :
  has_nan (theta_at normalized_km price learning_rate k) = true ->
  (forall j : nat, (j < k)%nat ->
     test_at normalized_km price learning_rate convergence j = false) ->
  descent_result normalized_km price learning_rate convergence iterations =
  (iterations, theta_at normalized_km price learning_rate (Z.to_nat iterations)).
Proof.
  intros Hnan Hbefore. apply descent_result_exhausted. intros j _.
  destruct (Nat.lt_ge_cases j k) as [Hlt | Hge]; [apply Hbefore; exact Hlt|].
  apply test_fails_on_nan.
  apply (theta_at_keeps_nan normalized_km price learning_rate k j Hge Hnan).
Qed.

(** X6. A parameter that has become [NaN] stays [NaN], and the test never
    passes again: if [theta] holds a [NaN] when iteration [k] starts, no
    later than the end of the budget, and no earlier iteration passed the
    test, [gradient_descent] returns the whole budget with a [theta] that
    holds a [NaN]. *)
Theorem gradient_descent_diverged_uses_budget
  (normalized_km price : Series) (mileages_arg : DataFrame)
  (learning_rate convergence : float) (iterations : Z) (w : World) (k : nat) :
  has_normalized normalized_km w ->
  mileages_arg !! "price" = Some price ->
  Z.of_nat k <= iterations ->
  has_nan (theta_at normalized_km price learning_rate k) = true ->
  (forall j : nat, (j < k)%nat ->
     test_at normalized_km price learning_rate convergence j = false) ->
  exists theta : ndarray2,
    gradient_descent mileages_arg learning_rate convergence iterations w
      = (Ok (iterations, theta), w)
    /\ has_nan theta = true.
Proof.
  intros Hn Hprice Hk Hnan Hbefore.
  rewrite (gradient_descent_found normalized_km price mileages_arg
             learning_rate Hprice convergence iterations w Hn).
  rewrite (descent_result_after_nan normalized_km price learning_rate
             convergence iterations k Hnan Hbefore).
  eexists. split; [reflexivity|].
  apply (theta_at_keeps_nan normalized_km price learning_rate k); [lia|].
  exact Hnan.
Qed.

Lemma gradient_descent_diverged_uses_budget_witness :
  exists theta : ndarray2,
    gradient_descent three_cars infinity 100 6 (started three_cars)
      = (Ok (6, theta), started three_cars)
    /\ has_nan theta = true.
Proof.
  apply (gradient_descent_diverged_uses_budget
           (normalized_of three_cars) (price_of three_cars) three_cars
           infinity 100 6 (started three_cars) 2).
  - vm_compute. reflexivity.
  - reflexivity.
  - lia.
  - vm_compute. reflexivity.
  - intros [|[|j]] Hj; [vm_compute; reflexivity | vm_compute; reflexivity
                       | lia].
Defined.

(** X7. A [NaN] learning rate makes the first update [NaN]: with a positive
    budget the run uses it whole and returns a [theta] that holds a
    [NaN]. *)
Theorem gradient_descent_nan_learning_rate
  (normalized_km price : Series) (mileages_arg : DataFrame)
  (learning_rate convergence : float) (iterations : Z) (w : World) :
  has_normalized normalized_km w ->
  mileages_arg !! "price" = Some price ->
  0 < iterations ->
  is_nan learning_rate = true ->
  exists theta : ndarray2,
    gradient_descent mileages_arg learning_rate convergence iterations w
      = (Ok (iterations, theta), w)
    /\ has_nan theta = true.
Proof.
  intros Hn Hprice Hpos Hlr.
  assert (Hnan : has_nan (theta_at normalized_km price learning_rate 1) = true).
  { unfold has_nan. simpl.
    rewrite (is_nan_sub_r _ _ (is_nan_mul_l learning_rate _ Hlr)).
    reflexivity. }
  rewrite (gradient_descent_found normalized_km price mileages_arg
             learning_rate Hprice convergence iterations w Hn).
  rewrite (descent_result_after_nan normalized_km price learning_rate
             convergence iterations 1 Hnan).
  - eexists. split; [reflexivity|].
    apply (theta_at_keeps_nan normalized_km price learning_rate 1); [lia|].
    exact Hnan.
  - intros j Hj. replace j with 0%nat by lia.
    apply test_fails_on_nan_update. exact Hnan.
Qed.

Lemma gradient_descent_nan_learning_rate_witness :
  exists theta : ndarray2,
    gradient_descent three_cars nan 100 5 (started three_cars)
      = (Ok (5, theta), started three_cars)
    /\ has_nan theta = true.
Proof.
  apply (gradient_descent_nan_learning_rate
           (normalized_of three_cars) (price_of three_cars) three_cars
           nan 100 5 (started three_cars)).
  - vm_compute. reflexivity.
  - reflexivity.
  - lia.
  - vm_compute. reflexivity.
Defined.

(** ** The constructor on missing, short and flat mileage columns *)

(** X8. [Trainer()] raises [KeyError] on [km] when the loaded frame has no
    such column, and builds no trainer.  Otherwise it succeeds: the frame
    it keeps holds a [normalized_km] value for every row, every other
    column as loaded, and the best result is empty. *)
Theorem Trainer_init_columns (data : DataFrame) :
  match data !! "km" with
  | None => Trainer_init data = Raise (KeyError "km")
  | Some km =>
      exists (tr : Trainer) (normalized : Series),
        Trainer_init data = Ok tr
        /\ mileages tr !! "normalized_km" = Some normalized
        /\ length normalized = length km
        /\ (forall key : string,
              key <> "normalized_km" -> mileages tr !! key = data !! key)
        /\ best_iterations tr = PosInf
        /\ best_theta tr = None
  end.
Proof.
  destruct (data !! "km") as [km|] eqn:Hkm.
  - eexists _, _. split; [apply (Trainer_init_found data km Hkm)|].
    split; [apply lookup_insert_eq|]. split; [apply length_map|].
    split; [|split; reflexivity].
    intros key Hkey. simpl. apply lookup_insert_ne. congruence.
  - unfold Trainer_init, getitem. rewrite Hkm. reflexivity.
Qed.

Lemma filter_notna_length (s : Series) :
  (length (List.filter notna s) <= length s)%nat.
Proof.
  induction s as [|x s IH]; simpl; [lia|].
  destruct (notna x); simpl; lia.
Qed.

Lemma series_std_few (s : Series) :
  (length s <= 1)%nat -> series_std s = nan.
Proof.
  intros Hlen. unfold series_std, count_notna.
  pose proof (filter_notna_length s) as Hf.
  destruct (Nat.leb_spec (length (List.filter notna s)) 1); [reflexivity|lia].
Qed.

Lemma normalized_not_finite (x mean std : float) :
  degenerate std -> is_finite ((x - mean) / std)%float = false.
Proof.
  intros [Hzero | Hnan].
  - apply float_div_by_zero. exact Hzero.
  - apply is_nan_not_finite, is_nan_div_r. exact Hnan.
Qed.

(** X9. With fewer than two mileages the sample standard deviation does not
    exist: [Trainer()] still succeeds, [std_km] is [NaN] and so is every
    [normalized_km] value. *)
Theorem Trainer_init_few_samples (data : DataFrame) (km : Series) :
  data !! "km" = Some km ->
  (length km <= 1)%nat ->
  exists (tr : Trainer) (normalized : Series),
    Trainer_init data = Ok tr
    /\ is_nan (std_km tr) = true
    /\ mileages tr !! "normalized_km" = Some normalized
    /\ length normalized = length km
    /\ Forall (fun v => is_nan v = true) normalized.
Proof.
  intros Hkm Hlen.
  eexists _, _. split; [apply (Trainer_init_found data km Hkm)|].
  simpl. rewrite (series_std_few km Hlen).
  split; [reflexivity|]. split; [apply lookup_insert_eq|].
  unfold broadcast. split; [apply length_map|].
  apply Forall_map, Forall_forall. intros x _. simpl.
  apply is_nan_div_r. reflexivity.
Qed.

Lemma Trainer_init_few_samples_witness :
  exists (tr : Trainer) (normalized : Series),
    Trainer_init one_car = Ok tr
    /\ is_nan (std_km tr) = true
    /\ mileages tr !! "normalized_km" = Some normalized
    /\ length normalized = 1%nat
    /\ Forall (fun v => is_nan v = true) normalized.
Proof.
  apply (Trainer_init_few_samples one_car [5]%float).
  - reflexivity.
  - simpl. lia.
Defined.

(** ** Runs and searches on a column that cannot be normalized *)

Lemma align_sub_nan (xs ys : Series) :
  Forall (fun v => is_nan v = true) xs ->
  Forall (fun v => is_nan v = true) (align PrimFloat.sub xs ys).
Proof.
  intros Hxs. revert ys.
  induction Hxs as [|x xs Hx Hxs IH]; intros ys.
  - destruct ys; simpl; [constructor|].
    constructor; [reflexivity|].
    apply Forall_map, Forall_forall. intros; reflexivity.
  - destruct ys as [|y ys]; simpl.
    + constructor; [reflexivity|].
      apply Forall_map, Forall_forall. intros; reflexivity.
    + constructor; [apply is_nan_sub_l; exact Hx | apply IH].
Qed.

Lemma filter_notna_none (s : Series) :
  Forall (fun v => is_nan v = true) s -> List.filter notna s = [].
Proof.
  induction 1 as [|x s Hx Hs IH]; simpl; [reflexivity|].
  unfold notna. rewrite Hx. simpl. exact IH.
Qed.

Lemma series_mean_all_nan (s : Series) :
  Forall (fun v => is_nan v = true) s -> is_nan (series_mean s) = true.
Proof.
  intros Hs. unfold series_mean, count_notna.
  rewrite (filter_notna_none s Hs). reflexivity.
Qed.

(** From [theta = 0] a column without finite value gives [NaN]
    predictions, hence a [NaN] update. *)
Lemma first_step_nan (normalized_km price : Series) (learning_rate : float) :
  Forall (fun v => is_finite v = false) normalized_km ->
  has_nan (theta_at normalized_km price learning_rate 1) = true.
Proof.
  intros Hnkm. unfold has_nan. simpl.
  rewrite is_nan_sub_r; [reflexivity|].
  apply is_nan_mul_r, series_mean_all_nan, align_sub_nan.
  unfold estimate_price, broadcast. apply Forall_map.
  eapply Forall_impl; [exact Hnkm|]. intros x Hx. simpl.
  apply is_nan_add_r, not_finite_zero_mul. exact Hx.
Qed.

Lemma descent_result_not_finite (normalized_km price : Series)
  (learning_rate convergence : float) (iterations : Z) :
  Forall (fun v => is_finite v = false) normalized_km ->
  0 < iterations ->
  descent_result normalized_km price learning_rate convergence iterations
    = (iterations,
       theta_at normalized_km price learning_rate (Z.to_nat iterations))
  /\ has_nan (theta_at normalized_km price learning_rate
                (Z.to_nat iterations)) = true.
Proof.
  intros Hnkm Hpos.
  pose proof (first_step_nan normalized_km price learning_rate Hnkm) as Hnan.
  split.
  - apply (descent_result_after_nan normalized_km price learning_rate
             convergence iterations 1 Hnan).
    intros j Hj. replace j with 0%nat by lia.
    apply test_fails_on_nan_update. exact Hnan.
  - apply (theta_at_keeps_nan normalized_km price learning_rate 1); [lia|].
    exact Hnan.
Qed.

Lemma Trainer_init_degenerate (data : DataFrame) (tr : Trainer)
  (fs : gmap string (list (string * float))) :
  Trainer_init data = Ok tr ->
  degenerate (std_km tr) ->
  exists normalized_km : Series,
    has_normalized normalized_km (MkWorld tr fs)
    /\ Forall (fun v => is_finite v = false) normalized_km.
Proof.
  intros Hinit Hdeg.
  destruct (Trainer_init_inv data tr Hinit) as (km & _ & ->).
  simpl in Hdeg. eexists. split.
  - unfold has_normalized. simpl. apply lookup_insert_eq.
  - unfold broadcast. apply Forall_map, Forall_forall. intros x _. simpl.
    apply normalized_not_finite. exact Hdeg.
Qed.

(** X10. When the constructor stored a [std_km] that is zero or [NaN],
    every run of [gradient_descent] on the new trainer, whatever the
    learning rate and the threshold, uses its whole positive budget and
    returns a [theta] that holds a [NaN]. *)
Theorem gradient_descent_on_degenerate_data
  (data mileages_arg : DataFrame) (price : Series) (tr : Trainer)
  (fs : gmap string (list (string * float)))
  (learning_rate convergence : float) (iterations : Z) :
  Trainer_init data = Ok tr ->
  degenerate (std_km tr) ->
  mileages_arg !! "price" = Some price ->
  0 < iterations ->
  exists theta : ndarray2,
    gradient_descent mileages_arg learning_rate convergence iterations
      (MkWorld tr fs) = (Ok (iterations, theta), MkWorld tr fs)
    /\ has_nan theta = true.
Proof.
  intros Hinit Hdeg Hprice Hpos.
  destruct (Trainer_init_degenerate data tr fs Hinit Hdeg) as (nkm & Hn & Hnf).
  rewrite (gradient_descent_found nkm price mileages_arg learning_rate
             Hprice convergence iterations _ Hn).
  destruct (descent_result_not_finite nkm price learning_rate convergence
              iterations Hnf Hpos) as [-> Hnan].
  eexists. split; [reflexivity | exact Hnan].
Qed.

Lemma gradient_descent_on_degenerate_data_witness :
  exists theta : ndarray2,
    gradient_descent same_mileage 0.5 100 7 (started same_mileage)
      = (Ok (7, theta), started same_mileage)
    /\ has_nan theta = true.
Proof.
  apply (gradient_descent_on_degenerate_data same_mileage same_mileage
           [8000; 6000]%float (self (started same_mileage)) ∅ 0.5 100 7).
  - vm_compute. reflexivity.
  - left. vm_compute. reflexivity.
  - reflexivity.
  - lia.
Defined.

(** X11. On such a trainer every candidate ties at the default budget, so
    the search keeps the first pair of the grid: the first learning rate
    with the first threshold, recorded with 500 iterations, and it exports
    and returns a [theta] that holds a [NaN] without raising. *)
Theorem hyperparameter_tuning_on_degenerate_data
  (data mileages_arg : DataFrame) (price : Series) (tr : Trainer)
  (fs : gmap string (list (string * float)))
  (lr ct : float) (learning_rates convergence_thresholds : list float) :
  Trainer_init data = Ok tr ->
  degenerate (std_km tr) ->
  mileages_arg !! "price" = Some price ->
  exists (theta : ndarray2) (w' : World),
    hyperparameter_tuning mileages_arg (lr :: learning_rates)
      (ct :: convergence_thresholds) (MkWorld tr fs) = (Ok (Some theta), w')
    /\ has_nan theta = true
    /\ best_iterations (self w') = Finite default_iterations
    /\ best_learning_rate (self w') = Some lr
    /\ best_convergence_threshold (self w') = Some ct
    /\ files w' !! "model.json" = Some (exported_model tr theta).
Proof.
  intros Hinit Hdeg Hprice.
  destruct (Trainer_init_degenerate data tr fs Hinit Hdeg) as (nkm & Hn & Hnf).
  assert (Hinf : best_iterations (self (MkWorld tr fs)) = PosInf).
  { destruct (Trainer_init_inv data tr Hinit) as (km & _ & ->). reflexivity. }
  assert (Hall : forall c, candidate_iters nkm price c = default_iterations
                           /\ has_nan (candidate_theta nkm price c) = true).
  { intros c. unfold candidate_iters, candidate_theta.
    destruct (descent_result_not_finite nkm price (fst c) (snd c)
                default_iterations Hnf) as [-> Hnan];
      [unfold default_iterations; lia|].
    split; [reflexivity | exact Hnan]. }
  pose proof (hyperparameter_tuning_unfold mileages_arg (lr :: learning_rates)
                (ct :: convergence_thresholds) (MkWorld tr fs)) as Hunfold.
  destruct (for_each_from_fresh nkm price mileages_arg Hprice
              (grid (lr :: learning_rates) (ct :: convergence_thresholds))
              (MkWorld tr fs)) as (k & c & [Hk Hmin] & Hrun);
    [discriminate | exact Hn | exact Hinf |].
  assert (Hk0 : k = 0%nat).
  { destruct k as [|k]; [reflexivity|].
    destruct (Hmin 0%nat (lr, ct) eq_refl) as [_ Hstrict].
    specialize (Hstrict ltac:(lia)).
    rewrite (proj1 (Hall c)), (proj1 (Hall (lr, ct))) in Hstrict. lia. }
  subst k. simpl in Hk. injection Hk as <-.
  rewrite Hrun in Hunfold. simpl in Hunfold.
  destruct (Hall (lr, ct)) as [Hiters Hnan].
  eexists _, _. split; [exact Hunfold|]. simpl.
  split; [exact Hnan|]. split; [rewrite Hiters; reflexivity|].
  split; [reflexivity|]. split; [reflexivity|].
  apply lookup_insert_eq.
Qed.

Lemma hyperparameter_tuning_on_degenerate_data_witness :
  exists (theta : ndarray2) (w' : World),
    hyperparameter_tuning one_car [0.5; 0.125]%float [100; 1000]%float
      (started one_car) = (Ok (Some theta), w')
    /\ has_nan theta = true
    /\ best_iterations (self w') = Finite default_iterations
    /\ best_learning_rate (self w') = Some 0.5%float
    /\ best_convergence_threshold (self w') = Some 100%float
    /\ files w' !! "model.json"
       = Some (exported_model (self (started one_car)) theta).
Proof.
  apply (hyperparameter_tuning_on_degenerate_data one_car one_car
           [8000]%float (self (started one_car)) ∅ 0.5 100
           [0.125]%float [1000]%float).
  - vm_compute. reflexivity.
  - right. vm_compute. reflexivity.
  - reflexivity.
Defined.

(** ** The exported file *)

(** X12. Exporting twice is exporting once: a second [model_to_json] has
    the outcome of the first and leaves the state the first one left,
    [model.json] included. *)
Theorem model_to_json_idempotent (w : World) :
  model_to_json (final_state model_to_json w) =
  (outcome model_to_json w, final_state model_to_json w).
Proof.
  unfold final_state, outcome, model_to_json. run_method.
  destruct (best_theta (self w)) as [theta|] eqn:Hbest; simpl.
  - rewrite Hbest. simpl. rewrite insert_insert_eq. reflexivity.
  - rewrite Hbest. reflexivity.
Qed.

Lemma for_each_related {A} (R : World -> World -> Prop)
  (body : A -> M unit) (xs : list A) :
  (forall w : World, R w w) ->
  (forall a b c : World, R a b -> R b c -> R a c) ->
  (forall (x : A) (w : World), R w (final_state (body x) w)) ->
  forall w : World, R w (final_state (for_each xs body) w).
Proof.
  intros Hrefl Htrans Hbody. unfold final_state in *.
  induction xs as [|x xs IH]; intros w; simpl; [apply Hrefl|].
  unfold bind. specialize (Hbody x w).
  destruct (body x w) as [[[]|e] w1]; simpl in *; [|exact Hbody].
  eapply Htrans; [exact Hbody | apply IH].
Qed.

Lemma try_candidate_files (mileages_arg : DataFrame) (lr ct : float)
  (w : World) :
  files (final_state (try_candidate mileages_arg lr ct) w) = files w.
Proof.
  unfold final_state, try_candidate, bind at 1.
  pose proof (gradient_descent_loop_state mileages_arg lr ct
                default_iterations (Z.to_nat default_iterations) 0 zeros2 w)
    as Hstate.
  unfold final_state in Hstate. unfold gradient_descent.
  destruct (gradient_descent_loop _ _ _ _ _ _ _ w) as [[[n theta]|e] w1];
    simpl in Hstate; subst w1; [|reflexivity].
  unfold bind, gets.
  destruct (int_lt n (best_iterations (self w))); reflexivity.
Qed.

Lemma for_each_files (mileages_arg : DataFrame)
  (cands : list (float * float)) (w : World) :
  files (final_state (for_each cands (try_pair mileages_arg)) w) = files w.
Proof.
  apply (for_each_related (fun a b => files b = files a)).
  - reflexivity.
  - intros a b c Hab Hbc. congruence.
  - intros c w0. apply try_candidate_files.
Qed.

(** X13. [hyperparameter_tuning] touches one file only, and only when it
    returns: it then returned the recorded best theta and [model.json] holds
    that theta with the trainer's [mean_km] and [std_km], under the keys
    [theta_0], [theta_1], [mean_km], [std_km] in this order; when it raises,
    every file is as it was. *)
Theorem hyperparameter_tuning_files (mileages_arg : DataFrame)
  (learning_rates convergence_thresholds : list float) (w : World) :
  let w' :=
    final_state
      (hyperparameter_tuning mileages_arg learning_rates
         convergence_thresholds) w in
  match outcome
          (hyperparameter_tuning mileages_arg learning_rates
             convergence_thresholds) w with
  | Ok returned =>
      exists theta : ndarray2,
        returned = Some theta
        /\ best_theta (self w') = Some theta
        /\ files w' = <["model.json" := exported_model (self w) theta]> (files w)
  | Raise _ => files w' = files w
  end.
Proof.
  unfold final_state, outcome. rewrite hyperparameter_tuning_unfold.
  pose proof (for_each_files mileages_arg
                (grid learning_rates convergence_thresholds) w) as Hfiles.
  pose proof (for_each_same_data (try_pair mileages_arg)
                (grid learning_rates convergence_thresholds)
                (fun c w0 =>
                   try_candidate_same_data mileages_arg (fst c) (snd c) w0) w)
    as (_ & Hmean & Hstd).
  unfold final_state in *.
  destruct (for_each _ _ w) as [[[]|e] w1]; simpl in *; [|exact Hfiles].
  unfold model_to_json. run_method.
  destruct (best_theta (self w1)) as [theta|] eqn:Hbest; simpl;
    [|exact Hfiles].
  exists theta. split; [exact Hbest|]. split; [exact Hbest|].
  unfold exported_model. simpl. rewrite Hfiles, Hmean, Hstd. reflexivity.
Qed.

(** ** Searches that do not start from a new trainer *)

Lemma for_each_lower_bound (normalized_km price : Series)
  (mileages_arg : DataFrame) (cands : list (float * float)) :
  mileages_arg !! "price" = Some price ->
  forall w : World,
    has_normalized normalized_km w ->
    exists w' : World,
      for_each cands (try_pair mileages_arg) w = (Ok tt, w')
      /\ iter_le (best_iterations (self w')) (best_iterations (self w))
      /\ forall (j : nat) (c : float * float),
           cands !! j = Some c ->
           iter_le (best_iterations (self w'))
             (Finite (candidate_iters normalized_km price c)).
Proof.
  intros Hprice. induction cands as [|c0 cands IH]; intros w Hn.
  - exists w. split; [reflexivity|]. split; [apply iter_le_refl|].
    intros j c Hj. rewrite lookup_nil in Hj. discriminate.
  - cbn [for_each]. unfold bind.
    rewrite (try_pair_found normalized_km price mileages_arg Hprice c0 w Hn).
    set (n0 := candidate_iters normalized_km price c0).
    set (w1 := if int_lt n0 (best_iterations (self w))
               then with_best n0 (fst c0) (snd c0)
                      (candidate_theta normalized_km price c0) w
               else w).
    assert (Hn1 : has_normalized normalized_km w1).
    { unfold w1. destruct (int_lt n0 (best_iterations (self w))); exact Hn. }
    assert (Hle1 : iter_le (best_iterations (self w1))
                     (best_iterations (self w))).
    { unfold w1. destruct (int_lt n0 (best_iterations (self w))) eqn:Hlt.
      - apply int_lt_iter_le. exact Hlt.
      - apply iter_le_refl. }
    assert (Hc0 : iter_le (best_iterations (self w1)) (Finite n0)).
    { unfold w1. destruct (int_lt n0 (best_iterations (self w))) eqn:Hlt.
      - simpl. lia.
      - destruct (best_iterations (self w)) as [|b]; simpl in *;
          [discriminate | lia]. }
    destruct (IH w1 Hn1) as (w' & Hrun & Hle & Hall).
    exists w'. split; [exact Hrun|].
    split; [eapply iter_le_trans; eassumption|].
    intros [|j] c Hj; simpl in Hj.
    + injection Hj as <-. eapply iter_le_trans; eassumption.
    + apply (Hall j c Hj).
Qed.

(** X14. Whatever best result the trainer already holds, a search never
    makes the recorded count worse, and ends with a count that is at most
    the count of every candidate of its grid. *)
Theorem hyperparameter_tuning_never_worsens
  (normalized_km price : Series) (mileages_arg : DataFrame)
  (learning_rates convergence_thresholds : list float) (w : World) :
  has_normalized normalized_km w ->
  mileages_arg !! "price" = Some price ->
  let w' :=
    final_state
      (hyperparameter_tuning mileages_arg learning_rates
         convergence_thresholds) w in
  iter_le (best_iterations (self w')) (best_iterations (self w))
  /\ forall (j : nat) (c : float * float) (n : Z) (theta : ndarray2),
       grid learning_rates convergence_thresholds !! j = Some c ->
       evaluate mileages_arg c w = Ok (n, theta) ->
       iter_le (best_iterations (self w')) (Finite n).
Proof.
  intros Hn Hprice. unfold final_state.
  rewrite hyperparameter_tuning_unfold.
  destruct (for_each_lower_bound normalized_km price mileages_arg
              (grid learning_rates convergence_thresholds) Hprice w Hn)
    as (w1 & Hrun & Hle & Hall).
  rewrite Hrun.
  assert (Hself : self (snd (match model_to_json w1 with
                             | (Ok _, w2) => (Ok (best_theta (self w2)), w2)
                             | (Raise e, w2) => (Raise e, w2)
                             end)) = self w1).
  { unfold model_to_json. run_method.
    destruct (best_theta (self w1)); reflexivity. }
  rewrite Hself. split; [exact Hle|].
  intros j c n theta Hj Heval.
  rewrite (evaluate_found normalized_km price mileages_arg Hprice c w Hn)
    in Heval.
  injection Heval as <- _. apply (Hall j c Hj).
Qed.

Lemma hyperparameter_tuning_never_worsens_witness :
  iter_le
    (best_iterations
       (self
          (final_state
             (hyperparameter_tuning three_cars [0.5]%float [100]%float)
             (with_best 2 1 1000 zeros2 (started three_cars)))))
    (best_iterations (self (with_best 2 1 1000 zeros2 (started three_cars)))).
Proof.
  destruct (hyperparameter_tuning_never_worsens
              (normalized_of three_cars) (price_of three_cars) three_cars
              [0.5]%float [100]%float
              (with_best 2 1 1000 zeros2 (started three_cars)))
    as [Hle _].
  - vm_compute. reflexivity.
  - reflexivity.
  - exact Hle.
Defined.

(** X15. With an empty candidate list on a trainer that already holds a
    best result, [hyperparameter_tuning] runs the optimizer for no
    candidate, whatever frame it is given, writes that best result to
    [model.json] again and returns it; nothing else changes. *)
Theorem hyperparameter_tuning_empty_reexports (mileages_arg : DataFrame)
  (learning_rates convergence_thresholds : list float) (w : World)
  (theta : ndarray2) :
  learning_rates = [] \/ convergence_thresholds = [] ->
  best_theta (self w) = Some theta ->
  hyperparameter_tuning mileages_arg learning_rates convergence_thresholds w
  = (Ok (Some theta),
     MkWorld (self w)
       (<["model.json" := exported_model (self w) theta]> (files w))).
Proof.
  intros Hempty Hbest.
  rewrite hyperparameter_tuning_unfold, (grid_empty _ _ Hempty).
  cbn [for_each]. unfold ret, model_to_json. run_method.
  rewrite Hbest. simpl. rewrite Hbest. reflexivity.
Qed.

Lemma hyperparameter_tuning_empty_reexports_witness :
  hyperparameter_tuning ∅ [0.5]%float []
    (with_best 2 1 1000 zeros2 (started three_cars))
  = (Ok (Some zeros2),
     MkWorld (self (with_best 2 1 1000 zeros2 (started three_cars)))
       (<["model.json" :=
            exported_model
              (self (with_best 2 1 1000 zeros2 (started three_cars))) zeros2]>
          (files (with_best 2 1 1000 zeros2 (started three_cars))))).
Proof.
  apply (hyperparameter_tuning_empty_reexports ∅ [0.5]%float []
           (with_best 2 1 1000 zeros2 (started three_cars)) zeros2).
  - right. reflexivity.
  - reflexivity.
Defined.

(** ** What the search and the optimizer read of their frame argument *)

Lemma for_each_ext {A} (f g : A -> M unit) (xs : list A) :
  (forall (x : A) (w : World), f x w = g x w) ->
  forall w : World, for_each xs f w = for_each xs g w.
Proof.
  intros Hfg. induction xs as [|x xs IH]; intros w; simpl; [reflexivity|].
  unfold bind. rewrite Hfg.
  destruct (g x w) as [[[]|e] w1]; [apply IH | reflexivity].
Qed.

Lemma try_candidate_price_only (df1 df2 : DataFrame) (lr ct : float)
  (w : World) :
  df1 !! "price" = df2 !! "price" ->
  try_candidate df1 lr ct w = try_candidate df2 lr ct w.
Proof.
  intros Hprice. unfold try_candidate, bind at 1 3, gradient_descent.
  rewrite (gradient_descent_loop_price_only df1 df2 lr ct default_iterations
             (Z.to_nat default_iterations) Hprice 0 zeros2 w).
  reflexivity.
Qed.

(** X16. A whole search reads its frame argument through the [price]
    column only: two arguments with the same [price] column give the same
    result, the same best result and the same file. *)
Theorem hyperparameter_tuning_depends_on_price_only (df1 df2 : DataFrame)
  (learning_rates convergence_thresholds : list float) (w : World) :
  df1 !! "price" = df2 !! "price" ->
  hyperparameter_tuning df1 learning_rates convergence_thresholds w =
  hyperparameter_tuning df2 learning_rates convergence_thresholds w.
Proof.
  intros Hprice. rewrite !hyperparameter_tuning_unfold.
  rewrite (for_each_ext (try_pair df1) (try_pair df2)); [reflexivity|].
  intros c w0. apply try_candidate_price_only. exact Hprice.
Qed.

Lemma hyperparameter_tuning_depends_on_price_only_witness :
  hyperparameter_tuning three_cars [0.5]%float [100]%float
    (started three_cars) =
  hyperparameter_tuning (frame_of [1]%float [8000; 6000; 4000]%float)
    [0.5]%float [100]%float (started three_cars).
Proof.
  apply (hyperparameter_tuning_depends_on_price_only three_cars
           (frame_of [1]%float [8000; 6000; 4000]%float)
           [0.5]%float [100]%float (started three_cars)).
  vm_compute. reflexivity.
Defined.

Lemma align_app_r (f : float -> float -> float) (xs ys zs : Series) :
  length xs = length ys ->
  align f xs (ys ++ zs) = zip_with f xs ys ++ map (fun _ => nan) zs.
Proof.
  revert ys. induction xs as [|x xs IH]; intros [|y ys] Hlen;
    simpl in *; try discriminate.
  - destruct zs; reflexivity.
  - f_equal. apply IH. lia.
Qed.

Lemma const_map_length {A B} (b : B) (l l' : list A) :
  length l = length l' -> map (fun _ => b) l = map (fun _ => b) l'.
Proof.
  revert l'. induction l as [|x l IH]; intros [|x' l'] Hlen;
    simpl in *; try discriminate; [reflexivity|].
  f_equal. apply IH. lia.
Qed.

Lemma step_theta_extra_rows (normalized_km price extra extra' : Series)
  (learning_rate : float) (theta : ndarray2) :
  length price = length normalized_km ->
  length extra = length extra' ->
  step_theta normalized_km (price ++ extra) learning_rate theta =
  step_theta normalized_km (price ++ extra') learning_rate theta.
Proof.
  intros Hlen Hextra. unfold step_theta.
  assert (Hpred : length (estimate_price normalized_km theta) = length price).
  { unfold estimate_price, broadcast. rewrite length_map. lia. }
  rewrite !(align_app_r _ _ _ _ Hpred).
  rewrite (const_map_length nan extra extra' Hextra). reflexivity.
Qed.

Lemma loop_result_ext (normalized_km price1 price2 : Series)
  (learning_rate convergence : float) (iterations : Z) (n : nat) :
  (forall theta : ndarray2,
     step_theta normalized_km price1 learning_rate theta =
     step_theta normalized_km price2 learning_rate theta) ->
  forall (i : Z) (theta : ndarray2),
    loop_result normalized_km price1 learning_rate convergence iterations
      n i theta =
    loop_result normalized_km price2 learning_rate convergence iterations
      n i theta.
Proof.
  intros Hstep. induction n as [|n IH]; intros i theta; simpl;
    [reflexivity|].
  rewrite Hstep.
  destruct (convergence_threshold_reached _ theta convergence);
    [reflexivity | apply IH].
Qed.

(** X17. The values in rows of the argument's [price] column beyond the
    trainer's own samples are never used: such a row aligns with no
    prediction and its error is missing whatever its price.  Two frames
    whose [price] columns agree on the trainer's samples and have the same
    number of extra rows give the same result. *)
Theorem gradient_descent_ignores_extra_values
  (normalized_km price extra extra' : Series) (df1 df2 : DataFrame)
  (learning_rate convergence : float) (iterations : Z) (w : World) :
  has_normalized normalized_km w ->
  df1 !! "price" = Some (price ++ extra) ->
  df2 !! "price" = Some (price ++ extra') ->
  length price = length normalized_km ->
  length extra = length extra' ->
  gradient_descent df1 learning_rate convergence iterations w =
  gradient_descent df2 learning_rate convergence iterations w.
Proof.
  intros Hn H1 H2 Hlen Hextra.
  rewrite (gradient_descent_found normalized_km (price ++ extra) df1
             learning_rate H1 convergence iterations w Hn).
  rewrite (gradient_descent_found normalized_km (price ++ extra') df2
             learning_rate H2 convergence iterations w Hn).
  unfold descent_result. f_equal. f_equal.
  apply loop_result_ext. intros theta.
  apply step_theta_extra_rows; assumption.
Qed.

Lemma gradient_descent_ignores_extra_values_witness :
  gradient_descent
    (frame_of [1]%float [8000; 6000; 4000; 123; 456]%float)
    0.5 100 500 (started three_cars) =
  gradient_descent
    (frame_of [1]%float [8000; 6000; 4000; 7; nan]%float)
    0.5 100 500 (started three_cars).
Proof.
  apply (gradient_descent_ignores_extra_values
           (normalized_of three_cars) [8000; 6000; 4000]%float
           [123; 456]%float [7; nan]%float
           (frame_of [1]%float [8000; 6000; 4000; 123; 456]%float)
           (frame_of [1]%float [8000; 6000; 4000; 7; nan]%float)
           0.5 100 500 (started three_cars)).
  - vm_compute. reflexivity.
  - reflexivity.
  - reflexivity.
  - reflexivity.
  - reflexivity.
Defined.

(** ** Missing columns in a search *)

(** X18. A search over non-empty candidate lists raises [KeyError] at its
    first candidate when a column is missing, on [normalized_km] before
    [price], and then leaves the whole state as it was: no best result is
    recorded and no file is written.  With both columns it never raises
    [KeyError]. *)
Theorem hyperparameter_tuning_raises_on_missing_column
  (mileages_arg : DataFrame)
  (learning_rates convergence_thresholds : list float) (w : World) :
  learning_rates <> [] ->
  convergence_thresholds <> [] ->
  match mileages (self w) !! "normalized_km", mileages_arg !! "price" with
  | None, _ =>
      hyperparameter_tuning mileages_arg learning_rates
        convergence_thresholds w = (Raise (KeyError "normalized_km"), w)
  | Some _, None =>
      hyperparameter_tuning mileages_arg learning_rates
        convergence_thresholds w = (Raise (KeyError "price"), w)
  | Some _, Some _ =>
      forall key : string,
        outcome
          (hyperparameter_tuning mileages_arg learning_rates
             convergence_thresholds) w <> Raise (KeyError key)
  end.
Proof.
  intros Hlrs Hcts.
  pose proof (grid_nonempty _ _ Hlrs Hcts) as Hgrid.
  unfold outcome. rewrite !hyperparameter_tuning_unfold.
  destruct (mileages (self w) !! "normalized_km") as [nkm|] eqn:Hn.
  - destruct (mileages_arg !! "price") as [price|] eqn:Hprice.
    + intros key.
      destruct (for_each_runs nkm price mileages_arg Hprice
                  (grid learning_rates convergence_thresholds) w Hn)
        as (w1 & Hrun & _).
      rewrite Hrun. unfold model_to_json. run_method.
      destruct (best_theta (self w1)); simpl; discriminate.
    + destruct (grid learning_rates convergence_thresholds)
        as [|c cands]; [congruence|].
      cbn [for_each]. unfold bind at 1, try_pair, try_candidate, bind at 1.
      pose proof (gradient_descent_by_columns mileages_arg (fst c) (snd c)
                    default_iterations w) as Hgd.
      rewrite Hn, Hprice in Hgd. cbv beta iota in Hgd.
      rewrite Hgd; [reflexivity|]. unfold default_iterations. lia.
  - destruct (grid learning_rates convergence_thresholds)
      as [|c cands]; [congruence|].
    cbn [for_each]. unfold bind at 1, try_pair, try_candidate, bind at 1.
    pose proof (gradient_descent_by_columns mileages_arg (fst c) (snd c)
                  default_iterations w) as Hgd.
    rewrite Hn in Hgd. cbv beta iota in Hgd.
    rewrite Hgd; [reflexivity|]. unfold default_iterations. lia.
Qed.

Lemma hyperparameter_tuning_raises_on_missing_column_witness :
  hyperparameter_tuning (frame_of [1; 2]%float []) [0.5]%float [100]%float
    (MkWorld blank_trainer ∅)
  = (Raise (KeyError "normalized_km"), MkWorld blank_trainer ∅).
Proof.
  apply (hyperparameter_tuning_raises_on_missing_column
           (frame_of [1; 2]%float []) [0.5]%float [100]%float
           (MkWorld blank_trainer ∅)).
  - discriminate.
  - discriminate.
Defined.

(** ** The order of the additions *)

(** Eight equal mileages: the eight running sums make their sum, hence
    their mean, exact, and the standard deviation is [0]. *)
Example eight_equal_mileages :
  series_mean (repeat 0x1.24f859999999ap+17%float 8)
    = 0x1.24f859999999ap+17%float
  /\ series_std (repeat 0x1.24f859999999ap+17%float 8) = 0%float.
Proof. vm_compute. split; reflexivity. Qed.

(** A missing value counts as [0] in the sum and not at all in the count. *)
Example mean_with_missing_value :
  series_mean [1; nan; 3]%float = 2%float.
Proof. vm_compute. reflexivity. Qed.
